(** * Edge AI recyclable-items classifier: the Streamlit app and its smoke tests

    A shallow embedding of [edge_AI_streamlit_app.py], [test_import.py] and
    [test_opencv_fallback.py].

    - Python floats are IEEE binary64 values, numpy [float32] elements are
      binary32 values: both are [spec_float] with the operations of
      [SpecFloat] at the right precision.
    - A Python [dict] is an insertion-ordered association list.
    - A Python exception is the list of the classes it is an instance of
      and its message, so that an [except] clause catches by ancestry.
    - The script is a computation in a small state-and-exception monad: the
      state holds what has been rendered on the page and which temporary
      files exist; everything the script obtains from outside the repository
      (the upload, PIL's decoder and encoder, what an import raises, whether
      the temporary file can be created, a widget call that raises) is a
      field of a [World].
    - String literals of the source that are long or not ASCII (CSS, emoji)
      are shortened; no statement depends on their text. *)

From Stdlib Require Import ZArith List String Ascii Bool Lia Arith.
From Stdlib Require Import Permutation Sorted.
From Stdlib Require Import SpecFloat.
From Stdlib Require Strings.Byte.
Import ListNotations.

Local Open Scope string_scope.
Local Open Scope list_scope.

(** ** Floating point *)

(** Python [float]: binary64. *)
Module F64.
Definition prec : Z := 53.
Definition emax : Z := 1024.
Definition t := spec_float.

Definition of_Z (z : Z) : t := binary_normalize prec emax z 0 false.
Definition add : t -> t -> t := SFadd prec emax.
Definition sub : t -> t -> t := SFsub prec emax.
Definition div : t -> t -> t := SFdiv prec emax.

(** The decimal literal [n/d], for instance [0.85] as [dec 85 100]: the
    binary64 value nearest to the quotient, which is what Python's parser
    produces for the literal. *)
Definition dec (n d : Z) : t := div (of_Z n) (of_Z d).

(** [x > y] and [x == y] on floats; both false on a NaN. *)
Definition gtb (x y : t) : bool :=
  match SFcompare x y with Some Gt => true | _ => false end.
Definition eqb (x y : t) : bool := SFeqb x y.

Definition is_nan (x : t) : bool :=
  match x with S754_nan => true | _ => false end.
End F64.

(** numpy [float32]: binary32. *)
Module F32.
Definition prec : Z := 24.
Definition emax : Z := 128.
Definition t := spec_float.

Definition of_Z (z : Z) : t := binary_normalize prec emax z 0 false.
Definition of_byte (b : Byte.byte) : t := of_Z (Z.of_N (Byte.to_N b)).
Definition div : t -> t -> t := SFdiv prec emax.
Definition leb (x y : t) : bool := SFleb x y.
End F32.

(** ** Python exceptions and results *)

(** An exception: the names of its class and of the classes that one
    derives from, nearest first, as [type(e).__mro__] lists them, and its
    message [str(e)]. *)
Record exn := mkExn { exn_mro : list string; exn_msg : string }.

(** [type(e).__name__]. *)
Definition exn_class (e : exn) : string := hd EmptyString (exn_mro e).

Definition mem_string (s : string) (l : list string) : bool :=
  existsb (String.eqb s) l.

(** [isinstance(e, C)]: [C] is the class of [e] or one of its ancestors. *)
Definition isinstance (e : exn) (c : string) : bool :=
  mem_string c (exn_mro e).

(** What [except Exception] and [except ImportError] catch. *)
Definition is_Exception (e : exn) : bool := isinstance e "Exception".
Definition is_ImportError (e : exn) : bool := isinstance e "ImportError".

(** The classes of the exceptions that occur here, each with its
    ancestors: Python's built-in ones, [UnidentifiedImageError] of PIL, and
    those of Streamlit, whose [StopException] and [RerunException] ([st.stop],
    [st.rerun]) derive from [BaseException] and not from [Exception]. *)
Module Exc.
Definition BaseException : list string := ["BaseException"; "object"].
Definition Exception : list string := "Exception" :: BaseException.
Definition KeyboardInterrupt : list string :=
  "KeyboardInterrupt" :: BaseException.
Definition SystemExit : list string := "SystemExit" :: BaseException.
Definition CancelledError : list string := "CancelledError" :: BaseException.
Definition ImportError : list string := "ImportError" :: Exception.
Definition ModuleNotFoundError : list string :=
  "ModuleNotFoundError" :: ImportError.
Definition LookupError : list string := "LookupError" :: Exception.
Definition KeyError : list string := "KeyError" :: LookupError.
Definition TypeError : list string := "TypeError" :: Exception.
Definition ValueError : list string := "ValueError" :: Exception.
Definition OSError : list string := "OSError" :: Exception.
Definition UnidentifiedImageError : list string :=
  "UnidentifiedImageError" :: OSError.
Definition StreamlitAPIException : list string :=
  "StreamlitAPIException" :: "MarkdownFormattedException" :: "Error"
  :: Exception.
Definition ScriptControlException : list string :=
  "ScriptControlException" :: BaseException.
Definition StopException : list string :=
  "StopException" :: ScriptControlException.
Definition RerunException : list string :=
  "RerunException" :: ScriptControlException.
End Exc.

(** The exception of [import m] for a module that is not installed. *)
Definition module_not_found (m : string) : exn :=
  mkExn Exc.ModuleNotFoundError
    (String.append "No module named '" (String.append m "'")).

Inductive result (A : Type) : Type :=
| Ok (a : A)
| Raise (e : exn).
Arguments Ok {A} a.
Arguments Raise {A} e.

(** ** Python dictionaries and [max] *)

Module Py.
(** [repr(s)] of a string: between single quotes, or between double quotes
    when the string holds a single quote and no double one; the quote in
    use and the backslash are escaped, control characters are written
    [\t], [\n], [\r] or [\xhh]; the bytes of a character outside ASCII
    are kept. *)
Definition hex_digit (n : nat) : ascii :=
  nth n [ "0"; "1"; "2"; "3"; "4"; "5"; "6"; "7";
          "8"; "9"; "a"; "b"; "c"; "d"; "e"; "f" ]%char "0"%char.

Definition backslash : ascii := "092"%char.
Definition squote : ascii := "039"%char.
Definition dquote : ascii := "034"%char.

Definition escape (quote c : ascii) : string :=
  let n := nat_of_ascii c in
  if Ascii.eqb c quote || Ascii.eqb c backslash
  then String backslash (String c EmptyString)
  else if Nat.eqb n 9 then String backslash "t"
  else if Nat.eqb n 10 then String backslash "n"
  else if Nat.eqb n 13 then String backslash "r"
  else if Nat.ltb n 32 || Nat.eqb n 127
  then String backslash
         (String "x" (String (hex_digit (n / 16))
                        (String (hex_digit (n mod 16)) EmptyString)))
  else String c EmptyString.

Definition has_char (c : ascii) (s : string) : bool :=
  existsb (Ascii.eqb c) (list_ascii_of_string s).

Definition repr (s : string) : string :=
  let quote :=
    if has_char squote s && negb (has_char dquote s) then dquote else squote in
  String quote
    (String.append (String.concat EmptyString
                      (map (escape quote) (list_ascii_of_string s)))
       (String quote EmptyString)).

Section Dict.
Context {V : Type}.

(** Keys in insertion order. *)
Definition dict := list (string * V).

Fixpoint get (d : dict) (k : string) : option V :=
  match d with
  | [] => None
  | (k', v) :: r => if String.eqb k k' then Some v else get r k
  end.

(** [d[k] = v]: an existing key keeps its place, a new one goes last. *)
Fixpoint setitem (d : dict) (k : string) (v : V) : dict :=
  match d with
  | [] => [(k, v)]
  | (k', v') :: r =>
      if String.eqb k k' then (k', v) :: r else (k', v') :: setitem r k v
  end.

(** The display [{k1: v1, ..., kn: vn}]. *)
Definition literal (kvs : list (string * V)) : dict :=
  fold_left (fun d kv => setitem d (fst kv) (snd kv)) kvs [].

Definition keys (d : dict) : list string := map fst d.
Definition values (d : dict) : list V := map snd d.
Definition items (d : dict) : list (string * V) := d.

(** [d[k]]: the message of the [KeyError] is the [repr] of the key. *)
Definition getitem (d : dict) (k : string) : result V :=
  match get d k with
  | Some v => Ok v
  | None => Raise (mkExn Exc.KeyError (repr k))
  end.
End Dict.
Arguments dict V : clear implicits.

(** [a > b] where either side may be [None] (the value of [d.get(k)] for
    a missing key): comparing with [None] raises [TypeError]. *)
Definition gt (a b : option F64.t) : result bool :=
  match a, b with
  | Some x, Some y => Ok (F64.gtb x y)
  | _, _ => Raise (mkExn Exc.TypeError "'>' not supported between instances")
  end.

Section Max.
Context {A : Type} (key : A -> option F64.t).

(** The loop of [max(iterable, key=key)]: the running maximum is
    replaced only by an item whose key is strictly greater. *)
Fixpoint max_loop (maxitem : A) (maxval : option F64.t) (rest : list A)
  : result A :=
  match rest with
  | [] => Ok maxitem
  | item :: rest' =>
      let val := key item in
      match gt val maxval with
      | Raise e => Raise e
      | Ok true => max_loop item val rest'
      | Ok false => max_loop maxitem maxval rest'
      end
  end.

Definition max (l : list A) : result A :=
  match l with
  | [] => Raise (mkExn Exc.ValueError "max() arg is an empty sequence")
  | x :: rest => max_loop x (key x) rest
  end.
End Max.
End Py.

(** ** The mock classifier of the app *)

(** [predictions], lines 113-118 of the app. *)
Definition predictions : Py.dict F64.t :=
  Py.literal
    [ ("Plastic Bottle", F64.dec 85 100);
      ("Aluminum Can",   F64.dec 10 100);
      ("Paper",          F64.dec 3 100);
      ("Glass",          F64.dec 2 100) ].

(** [max(predictions, key=predictions.get)], line 130, for any dictionary
    bound to [predictions]. *)
Definition top_prediction (predictions : Py.dict F64.t) : result string :=
  Py.max (Py.get predictions) (Py.keys predictions).

(** ** What the specification says of ranking *)

Module Spec.
(** Insertion into a sequence sorted by descending confidence; an entry
    passes only entries of strictly greater confidence, so that among
    equal confidences the lower class index stays first. *)
Fixpoint insert_desc (x : string * F64.t) (l : list (string * F64.t))
  : list (string * F64.t) :=
  match l with
  | [] => [x]
  | y :: r =>
      if F64.gtb (snd y) (snd x) then y :: insert_desc x r else x :: l
  end.

(** "Sort class indices by descending confidence; ties break by ascending
    class index." *)
Definition rank (scores : list (string * F64.t)) : list (string * F64.t) :=
  fold_right insert_desc [] scores.

(** "The top entry is the first element of the sorted sequence." *)
Definition top (scores : list (string * F64.t)) : option string :=
  match rank scores with
  | [] => None
  | x :: _ => Some (fst x)
  end.

(** Python's [sum] of the confidences. *)
Definition total (confidences : list F64.t) : F64.t :=
  fold_left F64.add confidences (F64.of_Z 0).

(** "The sum of scores is not within a small numerical tolerance (e.g.
    0.01) of 1.0". *)
Definition needs_normalization (confidences : list F64.t) : bool :=
  F64.gtb (SFabs (F64.sub (total confidences) (F64.of_Z 1))) (F64.dec 1 100).

End Spec.

(** ** PIL images *)

Module PIL.
(** The modes whose bands are stored as one byte each ([M1] is the mode
    "1"). The modes with wider samples (I, F, I;16) are left out: their
    samples are not bytes. *)
Inductive Mode :=
| M1 | L | P | RGB | RGBA | CMYK | YCbCr | LAB | HSV | LA | PA | RGBX.

(** [img.mode], a string. *)
Definition mode_name (m : Mode) : string :=
  match m with
  | M1 => "1" | L => "L" | P => "P" | RGB => "RGB" | RGBA => "RGBA"
  | CMYK => "CMYK" | YCbCr => "YCbCr" | LAB => "LAB" | HSV => "HSV"
  | LA => "LA" | PA => "PA" | RGBX => "RGBX"
  end.

(** [a == b] on modes compares their names. *)
Definition mode_eqb (a b : Mode) : bool :=
  String.eqb (mode_name a) (mode_name b).

(** [len(img.getbands())]. *)
Definition bands (m : Mode) : nat :=
  match m with
  | M1 | L | P => 1
  | LA | PA => 2
  | RGB | YCbCr | LAB | HSV => 3
  | RGBA | CMYK | RGBX => 4
  end.

Inductive Resampling := NEAREST | BOX | BILINEAR | HAMMING | BICUBIC | LANCZOS.

(** The sample of band [c] at column [x], row [y]. *)
Definition raster := nat -> nat -> nat -> Byte.byte.

(** [size] is [(width, height)], as PIL has it. *)
Record Image := mkImage { mode : Mode; size : nat * nat; px : raster }.

(** The pixel arithmetic of the library, which the repository only
    calls: the colour conversion between two modes, and the resampling of
    a raster of a given mode from one size to another. *)
Record Library := mkLibrary {
  convert_px : Mode -> Mode -> raster -> raster;
  resample_px : Resampling -> Mode -> nat * nat -> nat * nat -> raster -> raster
}.

Section Ops.
Variable lib : Library.

(** [img.convert(m)]: same size, mode [m]. *)
Definition convert (m : Mode) (img : Image) : Image :=
  {| mode := m; size := size img;
     px := convert_px lib (mode img) m (px img) |}.

Definition size_eqb (a b : nat * nat) : bool :=
  Nat.eqb (fst a) (fst b) && Nat.eqb (snd a) (snd b).

(** [img.resize(sz, flt)]: an image that already has the size [sz] is
    returned as a copy; otherwise a size without pixels raises
    [ValueError], and any other gives the resampled raster, in the same
    mode and of size [sz]. *)
Definition resize (sz : nat * nat) (flt : Resampling) (img : Image)
  : result Image :=
  if size_eqb (size img) sz then Ok img
  else if Nat.eqb (fst sz) 0 || Nat.eqb (snd sz) 0
  then Raise (mkExn Exc.ValueError "height and width must be > 0")
  else Ok {| mode := mode img; size := sz;
             px := resample_px lib flt (mode img) (size img) sz (px img) |}.
End Ops.
End PIL.

(** ** numpy arrays *)

Module Np.
(** A [float32] array: its shape and its elements in row-major order. *)
Record ndarray := mkArray { shape : list nat; data : list F32.t }.

(** The element for a sample: the byte as a float; a pixel of the mode
    "1", which PIL stores as the byte 0 or 255, is a boolean for numpy,
    0.0 or 1.0. *)
Definition element (m : PIL.Mode) (b : Byte.byte) : F32.t :=
  match m with
  | PIL.M1 => if Byte.eqb b Byte.x00 then F32.of_Z 0 else F32.of_Z 1
  | _ => F32.of_byte b
  end.

(** [np.array(img, dtype=np.float32)]: rows, then columns, then bands; a
    single-band image gives a two-dimensional array. *)
Definition array_float32 (img : PIL.Image) : ndarray :=
  let w := fst (PIL.size img) in
  let h := snd (PIL.size img) in
  let b := PIL.bands (PIL.mode img) in
  {| shape := if Nat.eqb b 1 then [h; w] else [h; w; b];
     data :=
       flat_map (fun y =>
         flat_map (fun x =>
           map (fun c => element (PIL.mode img) (PIL.px img x y c)) (seq 0 b))
           (seq 0 w))
         (seq 0 h) |}.

(** [a / c], element by element, in [float32]. *)
Definition true_divide (a : ndarray) (c : F32.t) : ndarray :=
  {| shape := shape a; data := map (fun v => F32.div v c) (data a) |}.

(** [0.0 <= v <= 1.0]. *)
Definition in_unit_interval (v : F32.t) : bool :=
  F32.leb (F32.of_Z 0) v && F32.leb v (F32.of_Z 1).

(** [np.expand_dims(a, axis)] for [axis <= a.ndim]. *)
Definition expand_dims (a : ndarray) (axis : nat) : ndarray :=
  {| shape := firstn axis (shape a) ++ 1 :: skipn axis (shape a);
     data := data a |}.
End Np.

(** ** The smoke tests *)

Module Tests.
Import PIL.

(** The decode step of the tests, [test_import.py] lines 86-88: after
    [Image.open], "convert to RGB if necessary". *)
Definition to_rgb (lib : Library) (img : Image) : Image :=
  if negb (mode_eqb (mode img) RGB) then convert lib RGB img else img.

(** The preprocessing of the tests ([test_import.py] lines 86-93,
    [test_opencv_fallback.py] lines 47-57) on the image [Image.open]
    returned, for a target size [(width, height)]. *)
Definition preprocess_to (target : nat * nat) (lib : Library) (img : Image)
  : result Np.ndarray :=
  let img := to_rgb lib img in
  match resize lib target LANCZOS img with
  | Raise e => Raise e
  | Ok img =>
      let processed_image :=
        Np.true_divide (Np.array_float32 img) (F32.of_Z 255) in
      Ok (Np.expand_dims processed_image 0)
  end.

(** The tests resize to [(224, 224)]. *)
Definition preprocess : Library -> Image -> result Np.ndarray :=
  preprocess_to (224, 224).

(** [import m], where [import_raises m] is the exception that loading the
    module [m] raises, if any: [ModuleNotFoundError] for a module that is
    not installed, [ImportError] for one that is installed and misses a
    library of its own, or whatever else the code of the module raises. *)
Definition import_module (import_raises : string -> option exn) (m : string)
  : result unit :=
  match import_raises m with
  | Some e => Raise e
  | None => Ok tt
  end.

(** [try: import m ... except ImportError: <handler>], the value of the
    statement being the one of [body] or of [handler]; an exception that is
    no [ImportError] passes. *)
Definition try_import {A} (import_raises : string -> option exn) (m : string)
  (body handler : result A) : result A :=
  match import_module import_raises m with
  | Ok _ => body
  | Raise e => if is_ImportError e then handler else Raise e
  end.

(** [test_imports] of [test_import.py]: its return value. *)
Definition test_imports (import_raises : string -> option exn) : result bool :=
  try_import import_raises "streamlit"
    (try_import import_raises "tensorflow"
      (try_import import_raises "numpy"
        (let after_cv2 :=
           try_import import_raises "PIL"
             (try_import import_raises "tempfile"
               (try_import import_raises "os" (Ok true) (Ok false))
               (Ok false))
             (Ok false) in
         (* OPENCV_AVAILABLE = True / False, then on with the function *)
         try_import import_raises "cv2" after_cv2 after_cv2)
        (Ok false))
      (Ok false))
    (Ok false).

(** [test_opencv_import_handling] of [test_opencv_fallback.py]: it
    returns [OPENCV_AVAILABLE]. *)
Definition test_opencv_import_handling (import_raises : string -> option exn)
  : result bool :=
  try_import import_raises "cv2" (Ok true) (Ok false).
End Tests.

(** ** The app *)

Module App.
(** The calls into Streamlit (and [time.sleep]) the script makes, with
    the arguments that vary; an f-string with a [:.1%] field is kept as
    its item and its float. *)
Inductive call :=
| set_page_config (page_title : string)
| markdown (body : string)
| header (body : string)
| subheader (body : string)
| columns
| file_uploader (label : string)
| image (img : PIL.Image) (caption : string)
| info (body : string)
| spinner (text : string)
| sleep (secs : Z)
| write (item : string) (confidence : F64.t)
| progress (value : F64.t)
| success (item : string) (confidence : F64.t)
| error (body : string).

(** What one run of the script gets from outside the repository. *)
Record World := mkWorld {
  (** the exception [import m] raises, if any *)
  import_raises : string -> option exn;
  (** the value of [st.file_uploader(...)]: the bytes of the upload *)
  uploaded_file : option (list Byte.byte);
  (** [Image.open] on the upload *)
  Image_open : list Byte.byte -> result PIL.Image;
  (** [image.save(path)]: the exception it raises, if any *)
  Image_save : PIL.Image -> string -> option exn;
  (** the exception [NamedTemporaryFile] raises when it cannot create the
      file, if any *)
  tmp_raises : option exn;
  (** the random part of the name [NamedTemporaryFile] picks *)
  tmp_token : string;
  (** the exception a call raises, if any *)
  call_raises : call -> option exn;
  (** the lines of [class_names.txt], when the file exists *)
  class_names_txt : option (list string)
}.

(** The calls made so far, in order, which is what the page shows, and
    the temporary files on disk. *)
Record state := mkState { page : list call; tmp_files : list string }.

Definition M (A : Type) : Type := state -> result A * state.

Definition ret {A} (a : A) : M A := fun s => (Ok a, s).

Definition bind {A B} (m : M A) (f : A -> M B) : M B :=
  fun s =>
    match m s with
    | (Ok a, s') => f a s'
    | (Raise e, s') => (Raise e, s')
    end.

Definition lift {A} (r : result A) : M A := fun s => (r, s).

(** [try: body except Exception as e: handler e]. *)
Definition try_except (body : M unit) (handler : exn -> M unit) : M unit :=
  fun s =>
    match body s with
    | (Ok a, s') => (Ok a, s')
    | (Raise e, s') =>
        if is_Exception e then handler e s' else (Raise e, s')
    end.

Declare Scope app_scope.
Delimit Scope app_scope with app.
Notation "x <- m ;; k" := (bind m (fun x => k))
  (at level 61, m at next level, right associativity) : app_scope.
Notation "m ;; k" := (bind m (fun _ => k))
  (at level 61, right associativity) : app_scope.
Local Open Scope app_scope.

(** [for x in l: body x]. *)
Fixpoint for_each {A} (l : list A) (body : A -> M unit) : M unit :=
  match l with
  | [] => ret tt
  | x :: r => body x ;; for_each r body
  end.

Definition path_eqb : string -> string -> bool := String.eqb.

Section Script.
Variable w : World.

(** A call either raises or shows on the page. *)
Definition st (c : call) : M unit :=
  fun s =>
    match call_raises w c with
    | Some e => (Raise e, s)
    | None => (Ok tt, {| page := page s ++ [c]; tmp_files := tmp_files s |})
    end.

Definition import_ (m : string) : M unit :=
  lift (Tests.import_module (import_raises w) m).

(** Lines 1-7. *)
Definition imports : M unit :=
  import_ "streamlit" ;;
  import_ "tensorflow" ;;
  import_ "numpy" ;;
  import_ "cv2" ;;
  import_ "PIL" ;;
  import_ "tempfile" ;;
  import_ "os".

(** Lines 9-65: page configuration, style, title, sidebar. *)
Definition page_top : M unit :=
  st (set_page_config "Edge AI Recyclable Items Classifier") ;;
  st (markdown "<style>...</style>") ;;
  st (markdown "<h1>Edge AI Recyclable Items Classifier</h1>") ;;
  st (markdown "---") ;;
  st (header "Model Information") ;;
  st (markdown "**Model Type**: TensorFlow Lite CNN ...").

(** [tempfile.NamedTemporaryFile(delete=False, suffix='.jpg')]: when the
    file can be created it exists from here on; leaving the [with] block
    closes it and, with [delete=False], keeps it. The value is
    [tmp_file.name]. When it cannot be created the call raises and there
    is no file. *)
Definition temp_name : string :=
  String.append "/tmp/tmp" (String.append (tmp_token w) ".jpg").

Definition NamedTemporaryFile : M string :=
  fun s =>
    match tmp_raises w with
    | Some e => (Raise e, s)
    | None =>
        (Ok temp_name,
         {| page := page s; tmp_files := temp_name :: tmp_files s |})
    end.

(** [image.save(path)] writes into the existing file or raises. *)
Definition save (img : PIL.Image) (path : string) : M unit :=
  fun s =>
    match Image_save w img path with
    | Some e => (Raise e, s)
    | None => (Ok tt, s)
    end.

(** Lines 70-91; the value is [temp_image_path]. *)
Definition column1 : M (option string) :=
  st (header "Upload Image") ;;
  st (file_uploader "Choose an image of a recyclable item") ;;
  match uploaded_file w with
  | Some f =>
      img <- lift (Image_open w f) ;;
      st (image img "Uploaded Image") ;;
      name <- NamedTemporaryFile ;;
      save img name ;;
      ret (Some name)
  | None =>
      st (info "Please upload an image to classify.") ;;
      ret None
  end.

(** Lines 120-133, for the dictionary bound to [predictions]. *)
Definition display_results (predictions : Py.dict F64.t) : M unit :=
  st (markdown "<div class=result-card>") ;;
  st (subheader "Classification Results") ;;
  for_each (Py.items predictions) (fun kv =>
    st (write (fst kv) (snd kv)) ;;
    st (progress (snd kv))) ;;
  top <- lift (top_prediction predictions) ;;
  confidence <- lift (Py.getitem predictions top) ;;
  st (success top confidence) ;;
  st (markdown "</div>").

(** Lines 98-133, the body of the [try]. *)
Definition classification : M unit :=
  st (info "Loading model and processing image...") ;;
  st (spinner "Classifying...") ;;
  import_ "time" ;;
  st (sleep 2) ;;
  display_results predictions.

(** Lines 135-137, the [except Exception as e] clause. *)
Definition handler (e : exn) : M unit :=
  st (error (String.append "Error during classification: " (exn_msg e))) ;;
  st (info "Make sure you have a trained TFLite model in the correct location.").

(** The truth value of [temp_image_path]. *)
Definition truthy (temp_image_path : option string) : bool :=
  match temp_image_path with
  | Some p => negb (String.eqb p EmptyString)
  | None => false
  end.

(** Lines 93-139. *)
Definition column2 (temp_image_path : option string) : M unit :=
  st (header "Classification Results") ;;
  if truthy temp_image_path
  then try_except classification handler
  else st (info "Upload an image to see classification results.").

(** Lines 141-166. *)
Definition footer : M unit :=
  st (markdown "---") ;;
  st (markdown "### Instructions") ;;
  st (markdown "1. **Upload Image** ... 4. Add proper image preprocessing").

(** [os.unlink(path)]. *)
Definition unlink (path : string) : M unit :=
  fun s =>
    (Ok tt, {| page := page s;
               tmp_files := filter (fun p => negb (path_eqb p path))
                              (tmp_files s) |}).

(** Lines 168-170. *)
Definition cleanup (temp_image_path : option string) : M unit :=
  fun s =>
    match temp_image_path with
    | Some p =>
        if truthy temp_image_path && existsb (path_eqb p) (tmp_files s)
        then unlink p s
        else (Ok tt, s)
    | None => (Ok tt, s)
    end.

(** The script. *)
Definition main : M unit :=
  imports ;;
  page_top ;;
  st columns ;;
  temp_image_path <- column1 ;;
  column2 temp_image_path ;;
  footer ;;
  cleanup temp_image_path.
End Script.

Definition fresh : state := {| page := []; tmp_files := [] |}.

(** One run of the script on a fresh page and an empty temp directory. *)
Definition run (w : World) : result unit * state := main w fresh.

(** The classification result a page shows: the [(item, confidence)]
    lines, and the entry of the "Most Likely" banner. *)
Definition shown_results (pg : list call) : list (string * F64.t) :=
  flat_map (fun c =>
    match c with write item conf => [(item, conf)] | _ => [] end) pg.

Definition shown_top (pg : list call) : list (string * F64.t) :=
  flat_map (fun c =>
    match c with success item conf => [(item, conf)] | _ => [] end) pg.

(** The classification result a run leaves on the page: the lines and the
    banner. *)
Definition classification_shown (w : World)
  : list (string * F64.t) * list (string * F64.t) :=
  (shown_results (page (snd (run w))), shown_top (page (snd (run w)))).

(** The state after the calls [cs] have been rendered. *)
Definition emit (cs : list call) (s : state) : state :=
  {| page := page s ++ cs; tmp_files := tmp_files s |}.

(** The calls of the loop of lines 125-127 over [predictions]. *)
Definition loop_calls (predictions : Py.dict F64.t) : list call :=
  flat_map (fun kv => [write (fst kv) (snd kv); progress (snd kv)])
    (Py.items predictions).

(** The calls of the classification block when nothing fails. *)
Definition block_calls : list call :=
  [ info "Loading model and processing image...";
    spinner "Classifying...";
    sleep 2;
    markdown "<div class=result-card>";
    subheader "Classification Results" ]
  ++ loop_calls predictions
  ++ [ success "Plastic Bottle" (F64.dec 85 100); markdown "</div>" ].

(** The calls of lines 9-65, of the upload column once the upload is
    opened, and of the footer. *)
Definition top_calls : list call :=
  [ set_page_config "Edge AI Recyclable Items Classifier";
    markdown "<style>...</style>";
    markdown "<h1>Edge AI Recyclable Items Classifier</h1>";
    markdown "---";
    header "Model Information";
    markdown "**Model Type**: TensorFlow Lite CNN ..." ].

Definition upload_calls (img : PIL.Image) : list call :=
  [ header "Upload Image";
    file_uploader "Choose an image of a recyclable item";
    image img "Uploaded Image" ].

Definition footer_calls : list call :=
  [ markdown "---"; markdown "### Instructions";
    markdown "1. **Upload Image** ... 4. Add proper image preprocessing" ].

(** The calls of the [except] clause for the exception [e]. *)
Definition handler_calls (e : exn) : list call :=
  [ error (String.append "Error during classification: " (exn_msg e));
    info "Make sure you have a trained TFLite model in the correct location." ].

(** A computation that neither creates nor removes a temporary file,
    whether it returns or raises. *)
Definition keeps_files {A} (m : M A) : Prop :=
  forall s, tmp_files (snd (m s)) = tmp_files s.

(** No call raises. *)
Definition widgets_work (w : World) : Prop :=
  forall c, call_raises w c = None.

(** Every import succeeds. *)
Definition all_installed (w : World) : Prop :=
  forall m, import_raises w m = None.

(** The upload is opened, the temporary file is created and the image is
    written to it. *)
Definition upload_stored (w : World) : Prop :=
  exists f img,
    uploaded_file w = Some f /\ Image_open w f = Ok img /\
    tmp_raises w = None /\
    Image_save w img (temp_name w) = None.

(** The world [w] with [class_names.txt] holding [labels]. *)
Definition with_labels (w : World) (labels : list string) : World :=
  {| import_raises := import_raises w;
     uploaded_file := uploaded_file w;
     Image_open := Image_open w;
     Image_save := Image_save w;
     tmp_raises := tmp_raises w;
     tmp_token := tmp_token w;
     call_raises := call_raises w;
     class_names_txt := Some labels |}.
End App.

(** ** The order of floats, and the running maximum as a fold *)

Module Order.
Local Open Scope Z_scope.

(** Floats that are not NaN compare as these triples do
    lexicographically: class, then exponent, then mantissa. *)
Definition rank3 (x : spec_float) : Z * Z * Z :=
  match x with
  | S754_zero _ => (0, 0, 0)
  | S754_nan => (0, 0, 0)
  | S754_infinity s => (if s then -2 else 2, 0, 0)
  | S754_finite s m e => if s then (-1, - e, - Zpos m) else (1, e, Zpos m)
  end.

Definition lex_gt (a b : Z * Z * Z) : Prop :=
  fst (fst a) > fst (fst b) \/
  (fst (fst a) = fst (fst b) /\
   (snd (fst a) > snd (fst b) \/
    (snd (fst a) = snd (fst b) /\ snd a > snd b))).


(** No confidence of the entries is a NaN. *)
Definition numbers (l : list (string * F64.t)) : Prop :=
  Forall (fun kv => F64.is_nan (snd kv) = false) l.

(** [b] does not have a greater confidence than [a]. *)
Definition not_below (a b : string * F64.t) : Prop :=
  F64.gtb (snd b) (snd a) = false.

End Order.

(** ** Concrete inputs *)

Module Demo.
Import PIL App.

(** Three labels with scores [0.5, 0.5, 0.0]. *)
Definition abc : Py.dict F64.t :=
  Py.literal [("A", F64.dec 5 10); ("B", F64.dec 5 10); ("C", F64.of_Z 0)].

Definition solid (b : Byte.byte) : raster := fun _ _ _ => b.

(** A one-pixel RGB image, a one-pixel RGBA image and a grey image of two
    pixels. *)
Definition rgb_pixel : Image :=
  {| mode := RGB; size := (1, 1); px := solid Byte.xff |}.
Definition rgba_pixel : Image :=
  {| mode := RGBA; size := (1, 1); px := solid Byte.x80 |}.
Definition grey_pixels : Image :=
  {| mode := L; size := (2, 1); px := solid Byte.x40 |}.

(** The start of a JPEG file, of a PNG file and of a BMP file, and no
    bytes. *)
Definition jpeg_upload : list Byte.byte :=
  [Byte.xff; Byte.xd8; Byte.xff; Byte.xe0].
Definition png_upload : list Byte.byte :=
  [Byte.x89; Byte.x50; Byte.x4e; Byte.x47].
Definition bmp_upload : list Byte.byte :=
  [Byte.x42; Byte.x4d].
Definition empty_upload : list Byte.byte := [].

(** The exception of [Image.open] on bytes that are no image. *)
Definition decode_error : exn :=
  mkExn Exc.UnidentifiedImageError "cannot identify image file".

(** A stand-in for [Image.open] on these uploads: no bytes cannot be
    identified, the PNG holds an RGBA image, the BMP a grey one, the JPEG
    an RGB one. *)
Definition pil_open (bytes : list Byte.byte) : result Image :=
  match bytes with
  | [] => Raise decode_error
  | b :: _ =>
      if Byte.eqb b Byte.x89 then Ok rgba_pixel
      else if Byte.eqb b Byte.x42 then Ok grey_pixels
      else Ok rgb_pixel
  end.

(** [image.save] to a [.jpg] path: PIL's JPEG writer takes the modes 1,
    L, RGB, RGBX, CMYK and YCbCr, and raises [OSError] on the others. *)
Definition pil_save (img : Image) (path : string) : option exn :=
  match mode img with
  | M1 | L | RGB | RGBX | CMYK | YCbCr => None
  | m => Some (mkExn Exc.OSError
                 (String.append "cannot write mode "
                    (String.append (mode_name m) " as JPEG")))
  end.

(** Every import succeeds, the temporary file can be created, the widgets
    work, there is no label file. *)
Definition world (upload : option (list Byte.byte)) : World :=
  {| import_raises := fun _ => None;
     uploaded_file := upload;
     Image_open := pil_open;
     Image_save := pil_save;
     tmp_raises := None;
     tmp_token := "k3x9q2ab";
     call_raises := fun _ => None;
     class_names_txt := None |}.

(** The same without OpenCV. *)
Definition world_without_cv2 (upload : option (list Byte.byte)) : World :=
  {| import_raises := fun m =>
       if String.eqb m "cv2" then Some (module_not_found "cv2") else None;
     uploaded_file := upload;
     Image_open := pil_open;
     Image_save := pil_save;
     tmp_raises := None;
     tmp_token := "k3x9q2ab";
     call_raises := fun _ => None;
     class_names_txt := None |}.

(** The same with a label file of three lines. *)
Definition world_with_labels (upload : option (list Byte.byte))
  (labels : list string) : World :=
  {| import_raises := fun _ => None;
     uploaded_file := upload;
     Image_open := pil_open;
     Image_save := pil_save;
     tmp_raises := None;
     tmp_token := "k3x9q2ab";
     call_raises := fun _ => None;
     class_names_txt := Some labels |}.

(** The same with a progress bar that raises on the value 0.10. The
    block of the app holds no call that fails on its own; this one stands
    for any failure inside it. *)
Definition world_progress_fails (upload : option (list Byte.byte)) : World :=
  {| import_raises := fun _ => None;
     uploaded_file := upload;
     Image_open := pil_open;
     Image_save := pil_save;
     tmp_raises := None;
     tmp_token := "k3x9q2ab";
     call_raises := fun c =>
       match c with
       | progress v =>
           if F64.eqb v (F64.dec 10 100)
           then Some (mkExn Exc.StreamlitAPIException
                      "Progress Value has invalid value")
           else None
       | _ => None
       end;
     class_names_txt := None |}.

Definition temp_path : string := "/tmp/tmpk3x9q2ab.jpg".

(** The worlds of the examples. *)
Definition no_upload : World := world None.
Definition jpeg_world : World := world (Some jpeg_upload).
Definition png_world : World := world (Some png_upload).
Definition bmp_world : World := world (Some bmp_upload).
Definition empty_world : World := world (Some empty_upload).
Definition no_cv2_world : World := world_without_cv2 (Some jpeg_upload).
Definition three_labels_world : World :=
  world_with_labels (Some jpeg_upload) ["A"; "B"; "C"].
Definition bar_world : World := world_progress_fails (Some jpeg_upload).

(** The exception of the progress bar of [bar_world]. *)
Definition bar_error : exn :=
  mkExn Exc.StreamlitAPIException "Progress Value has invalid value".

(** A stand-in for the pixel arithmetic: grey from the first band, and
    nearest-neighbour resampling. *)
Definition lib : Library :=
  {| convert_px := fun _ _ r x y _ => r x y 0;
     resample_px := fun _ _ from to r x y c =>
       r (x * fst from / fst to) (y * snd from / snd to) c |}.
End Demo.

(** ** The image tests of the two test scripts *)

Module Smoke.
Import PIL.

(** What a test prints: a fixed text (an f-string on an exception is the
    text followed by its message), the shape, the value range, the dtype. *)
Inductive line :=
| say (text : string)
| say_shape (shape : list nat)
| say_range (lo hi : F32.t)
| say_dtype (name : string).

(** What a test gets from outside the repository. *)
Record World := mkWorld {
  (** the exception [import m] raises, if any *)
  import_raises : string -> option exn;
  (** the pixel arithmetic of PIL *)
  lib : Library;
  (** [image.save(path)]: the exception it raises, if any *)
  Image_save : Image -> string -> option exn;
  (** [Image.open(path)] *)
  Image_open : string -> result Image;
  (** the exception [NamedTemporaryFile] raises when it cannot create the
      file, if any *)
  tmp_raises : option exn;
  (** the random part of the name [NamedTemporaryFile] picks *)
  tmp_token : string
}.

(** The lines printed so far, and the temporary files on disk. *)
Record state := mkState { stdout : list line; tmp_files : list string }.

Definition M (A : Type) : Type := state -> result A * state.

Definition ret {A} (a : A) : M A := fun s => (Ok a, s).

Definition bind {A B} (m : M A) (f : A -> M B) : M B :=
  fun s =>
    match m s with
    | (Ok a, s') => f a s'
    | (Raise e, s') => (Raise e, s')
    end.

Definition lift {A} (r : result A) : M A := fun s => (r, s).

(** [try: body except Exception as e: handler e]. *)
Definition try_except {A} (body : M A) (handler : exn -> M A) : M A :=
  fun s =>
    match body s with
    | (Ok a, s') => (Ok a, s')
    | (Raise e, s') =>
        if is_Exception e then handler e s' else (Raise e, s')
    end.

(** [try: body except ImportError: handler]. *)
Definition try_except_ImportError {A} (body : M A) (handler : M A) : M A :=
  fun s =>
    match body s with
    | (Ok a, s') => (Ok a, s')
    | (Raise e, s') =>
        if is_ImportError e then handler s' else (Raise e, s')
    end.

Declare Scope smoke_scope.
Delimit Scope smoke_scope with smoke.
Notation "x <- m ;; k" := (bind m (fun x => k))
  (at level 61, m at next level, right associativity) : smoke_scope.
Notation "m ;; k" := (bind m (fun _ => k))
  (at level 61, right associativity) : smoke_scope.
Local Open Scope smoke_scope.

Definition print (l : line) : M unit :=
  fun s => (Ok tt, {| stdout := stdout s ++ [l]; tmp_files := tmp_files s |}).

(** [Image.new('RGB', size, color)] for a colour given by its bytes. *)
Definition Image_new_RGB (size : nat * nat)
  (color : Byte.byte * Byte.byte * Byte.byte) : Image :=
  {| mode := RGB; size := size;
     px := fun _ _ c =>
       match c with
       | 0 => fst (fst color)
       | 1 => snd (fst color)
       | _ => snd color
       end |}.

(** The colours 'red', 'blue' and 'green' of PIL. *)
Definition red : Byte.byte * Byte.byte * Byte.byte :=
  (Byte.xff, Byte.x00, Byte.x00).
Definition blue : Byte.byte * Byte.byte * Byte.byte :=
  (Byte.x00, Byte.x00, Byte.xff).
Definition green : Byte.byte * Byte.byte * Byte.byte :=
  (Byte.x00, Byte.x80, Byte.x00).

Definition is_nan (x : F32.t) : bool :=
  match x with S754_nan => true | _ => false end.

(** One step of numpy's [min] and [max] reductions: a NaN, once met,
    stays. *)
Definition fmin (acc x : F32.t) : F32.t :=
  if is_nan acc then acc
  else if is_nan x then x
  else if SFltb x acc then x else acc.

Definition fmax (acc x : F32.t) : F32.t :=
  if is_nan acc then acc
  else if is_nan x then x
  else if SFltb acc x then x else acc.

(** [a.min()] and [a.max()]: an array without elements has neither. *)
Definition amin (a : Np.ndarray) : result F32.t :=
  match Np.data a with
  | [] => Raise (mkExn Exc.ValueError "zero-size array to reduction operation minimum which has no identity")
  | x :: r => Ok (fold_left fmin r x)
  end.

Definition amax (a : Np.ndarray) : result F32.t :=
  match Np.data a with
  | [] => Raise (mkExn Exc.ValueError "zero-size array to reduction operation maximum which has no identity")
  | x :: r => Ok (fold_left fmax r x)
  end.

Definition path_eqb : string -> string -> bool := String.eqb.

Section Tests.
Variable w : World.

Definition import_ (m : string) : M unit :=
  lift (Tests.import_module (import_raises w) m).

(** The name [NamedTemporaryFile(suffix='.jpg', delete=False)] picks. *)
Definition temp_name : string :=
  String.append "/tmp/tmp" (String.append (tmp_token w) ".jpg").

(** When the file can be created it exists from here on and is kept when
    the [with] block is left; when it cannot, the call raises and there is
    no file. *)
Definition NamedTemporaryFile : M string :=
  fun s =>
    match tmp_raises w with
    | Some e => (Raise e, s)
    | None =>
        (Ok temp_name,
         {| stdout := stdout s; tmp_files := temp_name :: tmp_files s |})
    end.

Definition save (img : Image) (path : string) : M unit :=
  fun s =>
    match Image_save w img path with
    | Some e => (Raise e, s)
    | None => (Ok tt, s)
    end.

Definition open (path : string) : M Image := lift (Image_open w path).

(** [os.unlink(path)]. *)
Definition unlink (path : string) : M unit :=
  fun s =>
    (Ok tt, {| stdout := stdout s;
               tmp_files := filter (fun p => negb (path_eqb p path))
                              (tmp_files s) |}).

(** [test_image_processing] of [test_import.py], lines 67-106. *)
Definition test_image_processing : M bool :=
  print (say "Testing image processing...") ;;
  try_except
    (import_ "PIL" ;;
     import_ "numpy" ;;
     import_ "tempfile" ;;
     import_ "os" ;;
     let test_image := Image_new_RGB (224, 224) red in
     temp_path <- NamedTemporaryFile ;;
     save test_image temp_path ;;
     img <- open temp_path ;;
     processed_image <- lift (Tests.preprocess (lib w) img) ;;
     print (say "PIL-based image processing successful") ;;
     print (say_shape (Np.shape processed_image)) ;;
     lo <- lift (amin processed_image) ;;
     hi <- lift (amax processed_image) ;;
     print (say_range lo hi) ;;
     unlink temp_path ;;
     ret true)
    (fun e =>
       print (say (String.append "Image processing test failed: " (exn_msg e))) ;;
       ret false).

(** [test_pil_functionality] of [test_opencv_fallback.py], lines 26-71. *)
Definition test_pil_functionality : M bool :=
  print (say "Testing PIL-based image processing...") ;;
  try_except
    (import_ "PIL" ;;
     import_ "numpy" ;;
     import_ "tempfile" ;;
     let test_image := Image_new_RGB (224, 224) blue in
     print (say "Created test image") ;;
     temp_path <- NamedTemporaryFile ;;
     save test_image temp_path ;;
     print (say "Saved and loaded test image") ;;
     img <- open temp_path ;;
     processed_image <- lift (Tests.preprocess (lib w) img) ;;
     print (say "PIL-based image preprocessing successful") ;;
     print (say_shape (Np.shape processed_image)) ;;
     lo <- lift (amin processed_image) ;;
     hi <- lift (amax processed_image) ;;
     print (say_range lo hi) ;;
     print (say_dtype "float32") ;;
     unlink temp_path ;;
     ret true)
    (fun e =>
       print (say (String.append "PIL functionality test failed: " (exn_msg e))) ;;
       ret false).

(** [test_app_imports] of [test_opencv_fallback.py], lines 73-119. *)
Definition test_app_imports : M bool :=
  print (say "Testing application import...") ;;
  try_except
    (import_ "streamlit" ;;
     import_ "numpy" ;;
     import_ "PIL" ;;
     import_ "tempfile" ;;
     import_ "os" ;;
     print (say "All basic dependencies imported successfully") ;;
     try_except_ImportError
       (import_ "cv2" ;;
        print (say "OpenCV is available"))
       (print (say "OpenCV not available - this is expected behavior")) ;;
     let test_image := Image_new_RGB (224, 224) green in
     temp_path <- NamedTemporaryFile ;;
     save test_image temp_path ;;
     img <- open temp_path ;;
     processed_image <- lift (Tests.preprocess (lib w) img) ;;
     print (say "PIL-based image processing (our fallback) works correctly") ;;
     unlink temp_path ;;
     ret true)
    (fun e =>
       print (say (String.append "Application import test failed: " (exn_msg e))) ;;
       ret false).
End Tests.

Definition fresh : state := {| stdout := []; tmp_files := [] |}.

(** The state after the lines [ls] have been printed. *)
Definition printed (ls : list line) (s : state) : state :=
  {| stdout := stdout s ++ ls; tmp_files := tmp_files s |}.

(** The state after the temporary file [name] has been created. *)
Definition created (name : string) (s : state) : state :=
  {| stdout := stdout s; tmp_files := name :: tmp_files s |}.
End Smoke.

(** ** The scaling of a sample *)

Module Scale.
(** The element of the tensor for the sample [b]: the bytes of
    [np.array(img, dtype=np.float32)] divided by [255.0]. *)
Definition normalized (b : Byte.byte) : F32.t :=
  F32.div (F32.of_byte b) (F32.of_Z 255).

(** The 256 bytes, in increasing order. *)
Definition all_bytes : list Byte.byte :=
  flat_map (fun n => match Byte.of_N (N.of_nat n) with
                     | Some b => [b]
                     | None => []
                     end) (seq 0 256).

(** Every byte with its element. *)
Definition table : list (N * F32.t) :=
  map (fun b => (Byte.to_N b, normalized b)) all_bytes.
End Scale.

(** ** More about the app *)

Module Script.
Import App.

(** The modules of lines 1-7, in the order of the imports. *)
Definition imported_modules : list string :=
  ["streamlit"; "tensorflow"; "numpy"; "cv2"; "PIL"; "tempfile"; "os"].

(** The first module of [ms] whose import raises, with its exception. *)
Fixpoint first_failure (w : World) (ms : list string) : option (string * exn) :=
  match ms with
  | [] => None
  | m :: r =>
      match import_raises w m with
      | Some e => Some (m, e)
      | None => first_failure w r
      end
  end.

(** None of the calls [cs] raises. *)
Definition calls_work (w : World) (cs : list call) : Prop :=
  forall c, In c cs -> call_raises w c = None.

(** What the page shows of a classification: the lines and the banner. *)
Definition shown (s : state) : list (string * F64.t) * list (string * F64.t) :=
  (shown_results (page s), shown_top (page s)).

(** A computation that adds no line and no banner, whether it returns or
    raises. *)
Definition quiet {A} (m : M A) : Prop :=
  forall s, shown (snd (m s)) = shown s.

(** A computation that adds at most the first lines of the dictionary [d],
    and the banner [b] only after all of them. *)
Definition shows_only {A} (d : Py.dict F64.t) (b : string * F64.t) (m : M A)
  : Prop :=
  forall s,
    exists n,
      shown_results (page (snd (m s)))
      = shown_results (page s) ++ firstn n (Py.items d) /\
      (shown_top (page (snd (m s))) = shown_top (page s) \/
       (shown_top (page (snd (m s))) = shown_top (page s) ++ [b] /\
        firstn n (Py.items d) = Py.items d)).

(** The exception [e] is one that something the script calls has raised:
    an import, [Image.open] on the upload, [NamedTemporaryFile],
    [image.save], or a call into Streamlit or [time]. *)
Definition raised_outside (w : World) (e : exn) : Prop :=
  (exists m, import_raises w m = Some e) \/
  (exists f, uploaded_file w = Some f /\ Image_open w f = Raise e) \/
  tmp_raises w = Some e \/
  (exists img path, Image_save w img path = Some e) \/
  (exists c, call_raises w c = Some e).

(** A computation that raises nothing of its own: an exception it ends
    with is one that was raised outside. *)
Definition raises_nothing_itself {A} (w : World) (m : M A) : Prop :=
  forall s e s', m s = (Raise e, s') -> raised_outside w e.

(** The page and the files when the classification block starts, for an
    upload opened as [img] and stored. *)
Definition block_start (w : World) (img : PIL.Image) : state :=
  {| page := top_calls ++ columns :: upload_calls img
             ++ [header "Classification Results"];
     tmp_files := [temp_name w] |}.
End Script.

(** ** More concrete inputs *)

Module Cases.
Import PIL.

(** TensorFlow is not installed. *)
Definition without_tensorflow : App.World :=
  {| App.import_raises := fun m =>
       if String.eqb m "tensorflow"
       then Some (module_not_found "tensorflow") else None;
     App.uploaded_file := Some Demo.jpeg_upload;
     App.Image_open := Demo.pil_open;
     App.Image_save := Demo.pil_save;
     App.tmp_raises := None;
     App.tmp_token := "k3x9q2ab";
     App.call_raises := fun _ => None;
     App.class_names_txt := None |}.

(** The user interrupts the two seconds of [time.sleep]. *)
Definition interrupt : exn := mkExn Exc.KeyboardInterrupt "interrupted".

Definition interrupted : App.World :=
  {| App.import_raises := fun _ => None;
     App.uploaded_file := Some Demo.jpeg_upload;
     App.Image_open := Demo.pil_open;
     App.Image_save := Demo.pil_save;
     App.tmp_raises := None;
     App.tmp_token := "k3x9q2ab";
     App.call_raises := fun c =>
       match c with
       | App.sleep _ => Some interrupt
       | _ => None
       end;
     App.class_names_txt := None |}.

(** The state in which the block of [interrupted] is left. *)
Definition interrupted_state : App.state :=
  {| App.page := App.page (Script.block_start interrupted Demo.rgb_pixel)
                 ++ [ App.info "Loading model and processing image...";
                      App.spinner "Classifying..." ];
     App.tmp_files := [Demo.temp_path] |}.

(** The state in which the block of [Demo.bar_world] fails. *)
Definition bar_state : App.state :=
  {| App.page := App.page (Script.block_start Demo.bar_world Demo.rgb_pixel)
                 ++ [ App.info "Loading model and processing image...";
                      App.spinner "Classifying...";
                      App.sleep 2;
                      App.markdown "<div class=result-card>";
                      App.subheader "Classification Results";
                      App.write "Plastic Bottle" (F64.dec 85 100);
                      App.progress (F64.dec 85 100);
                      App.write "Aluminum Can" (F64.dec 10 100) ];
     App.tmp_files := [Demo.temp_path] |}.

(** What a JPEG decoder may return for the red test image: 224 x 224
    pixels of a red one step darker. *)
Definition decoded_red : Image :=
  {| mode := RGB; size := (224, 224);
     px := fun _ _ c => match c with 0 => Byte.xfe | _ => Byte.x00 end |}.

(** Every module installed, a JPEG round trip that works. *)
Definition good : Smoke.World :=
  {| Smoke.import_raises := fun _ => None;
     Smoke.lib := Demo.lib;
     Smoke.Image_save := fun _ _ => None;
     Smoke.Image_open := fun _ => Ok decoded_red;
     Smoke.tmp_raises := None;
     Smoke.tmp_token := "k3x9q2ab" |}.

(** The disk is full: [save] raises. *)
Definition disk_full_error : exn :=
  mkExn Exc.OSError "No space left on device".

Definition disk_full : Smoke.World :=
  {| Smoke.import_raises := fun _ => None;
     Smoke.lib := Demo.lib;
     Smoke.Image_save := fun _ _ => Some disk_full_error;
     Smoke.Image_open := fun _ => Ok decoded_red;
     Smoke.tmp_raises := None;
     Smoke.tmp_token := "k3x9q2ab" |}.

(** The stored file cannot be decoded: [Image.open] raises. *)
Definition unreadable_error : exn :=
  mkExn Exc.UnidentifiedImageError "cannot identify image file".

Definition unreadable : Smoke.World :=
  {| Smoke.import_raises := fun _ => None;
     Smoke.lib := Demo.lib;
     Smoke.Image_save := fun _ _ => None;
     Smoke.Image_open := fun _ => Raise unreadable_error;
     Smoke.tmp_raises := None;
     Smoke.tmp_token := "k3x9q2ab" |}.
End Cases.

(** * Properties *)

(** ** Floats that are not NaN are totally preordered *)

Section FloatOrder.
Import Order.
Local Open Scope Z_scope.

Lemma gtb_rank3 (x y : F64.t) :
  F64.is_nan x = false -> F64.is_nan y = false ->
  F64.gtb x y = true <-> lex_gt (rank3 x) (rank3 y).
Proof.
  intros Hx Hy. unfold F64.gtb, lex_gt.
  destruct x as [sx|sx| |sx mx ex], y as [sy|sy| |sy my ey];
    try discriminate; cbn [SFcompare rank3 fst snd];
    try (destruct sx); try (destruct sy); cbn [fst snd];
    try change (Pos.compare_cont Eq mx my) with (Pos.compare mx my);
    try (destruct (Z.compare_spec ex ey));
    try (destruct (Pos.compare_spec mx my));
    cbn [CompOpp]; split; intros Hgt;
    try discriminate; try reflexivity; try lia.
Qed.


Lemma gtb_negtrans (x y z : F64.t) :
  F64.is_nan x = false -> F64.is_nan y = false -> F64.is_nan z = false ->
  F64.gtb x y = false -> F64.gtb y z = false -> F64.gtb x z = false.
Proof.
  intros Hx Hy Hz Hxy Hyz.
  destruct (F64.gtb x z) eqn:Hxz; [exfalso | reflexivity].
  apply gtb_rank3 in Hxz; try assumption.
  assert (~ lex_gt (rank3 x) (rank3 y))
    by (rewrite <- gtb_rank3 by assumption; congruence).
  assert (~ lex_gt (rank3 y) (rank3 z))
    by (rewrite <- gtb_rank3 by assumption; congruence).
  unfold lex_gt in *. lia.
Qed.

Lemma gtb_irrefl (x : F64.t) : F64.is_nan x = false -> F64.gtb x x = false.
Proof.
  intros Hx. destruct (F64.gtb x x) eqn:E; [exfalso | reflexivity].
  apply gtb_rank3 in E; try assumption. unfold lex_gt in E. lia.
Qed.

Lemma gtb_numbers (x y : F64.t) :
  F64.gtb x y = true -> F64.is_nan x = false /\ F64.is_nan y = false.
Proof.
  unfold F64.gtb. destruct x, y; cbn; try discriminate; auto.
Qed.

Lemma gtb_asym (x y : F64.t) : F64.gtb x y = true -> F64.gtb y x = false.
Proof.
  intros H. destruct (gtb_numbers x y H) as [Hx Hy].
  destruct (F64.gtb y x) eqn:E; [exfalso | reflexivity].
  apply gtb_rank3 in H, E; try assumption. unfold lex_gt in *. lia.
Qed.

Lemma eqb_rank3 (x y : F64.t) : F64.eqb x y = true -> rank3 x = rank3 y.
Proof.
  unfold F64.eqb, SFeqb.
  destruct x as [sx|sx| |sx mx ex], y as [sy|sy| |sy my ey];
    cbn [SFcompare rank3]; try discriminate; try reflexivity;
    destruct sx, sy; try discriminate; try reflexivity;
    change (Pos.compare_cont Eq mx my) with (Pos.compare mx my);
    destruct (Z.compare_spec ex ey); try discriminate;
    destruct (Pos.compare_spec mx my); try discriminate;
    intros _; subst; reflexivity.
Qed.

Lemma eqb_numbers (x y : F64.t) :
  F64.eqb x y = true -> F64.is_nan x = false /\ F64.is_nan y = false.
Proof.
  unfold F64.eqb, SFeqb. destruct x, y; cbn; try discriminate; auto.
Qed.

(** Two floats equal to a third are not strictly ordered. *)
Lemma gtb_eqb_absurd (x y v : F64.t) :
  F64.gtb y x = true -> F64.eqb x v = true -> F64.eqb y v = true -> False.
Proof.
  intros Hgt Hx Hy. destruct (gtb_numbers y x Hgt) as [Hny Hnx].
  apply gtb_rank3 in Hgt; try assumption.
  apply eqb_rank3 in Hx, Hy. rewrite Hx, Hy in Hgt.
  unfold lex_gt in Hgt. lia.
Qed.
End FloatOrder.

(** ** Dictionaries, [max] and the specification's ranking *)

Section Ranking.
Import Order.










Lemma insert_desc_In (x e : string * F64.t) (l : list (string * F64.t)) :
  In e (Spec.insert_desc x l) -> e = x \/ In e l.
Proof.
  induction l as [|y r IH]; cbn.
  - intros [<-|[]]. now left.
  - destruct (F64.gtb (snd y) (snd x)); cbn.
    + intros [<-|H]; [right; now left|].
      destruct (IH H); [now left | right; now right].
    + intros [<-|H]; [now left | now right].
Qed.

Lemma rank_In (e : string * F64.t) (l : list (string * F64.t)) :
  In e (Spec.rank l) -> In e l.
Proof.
  induction l as [|x r IH]; cbn; [auto|].
  intros H. apply insert_desc_In in H. destruct H as [->|H]; auto.
Qed.




(** The ranking of the specification is a sort: a permutation of its
    input, *)
Lemma insert_desc_perm (x : string * F64.t) (l : list (string * F64.t)) :
  Permutation (Spec.insert_desc x l) (x :: l).
Proof.
  induction l as [|y r IH]; cbn; [apply Permutation_refl|].
  destruct (F64.gtb (snd y) (snd x)); [|apply Permutation_refl].
  apply Permutation_trans with (y :: x :: r).
  - now apply perm_skip.
  - apply perm_swap.
Qed.

Lemma rank_perm (l : list (string * F64.t)) : Permutation (Spec.rank l) l.
Proof.
  induction l as [|x r IH]; cbn; [apply Permutation_refl|].
  apply Permutation_trans with (x :: Spec.rank r).
  - apply insert_desc_perm.
  - now apply perm_skip.
Qed.

(** in which no entry is followed by one of greater confidence, *)
Lemma insert_desc_sorted (x : string * F64.t) (l : list (string * F64.t)) :
  numbers (x :: l) ->
  StronglySorted not_below l -> StronglySorted not_below (Spec.insert_desc x l).
Proof.
  intros Hnum Hs. induction Hs as [|y r Hr IH Hy]; cbn.
  - repeat constructor.
  - assert (Hall : forall e, In e (x :: y :: r) -> F64.is_nan (snd e) = false)
      by (apply Forall_forall, Hnum).
    destruct (F64.gtb (snd y) (snd x)) eqn:Hgt.
    + constructor.
      * apply IH. inversion Hnum as [|? ? Hx Hyr]. inversion Hyr.
        now constructor.
      * apply Forall_forall. intros e He. apply insert_desc_In in He.
        destruct He as [->|He].
        -- now apply gtb_asym.
        -- rewrite Forall_forall in Hy. now apply Hy.
    + constructor; [now constructor|]. constructor; [exact Hgt|].
      apply Forall_forall. intros e He. rewrite Forall_forall in Hy.
      apply (gtb_negtrans (snd e) (snd y) (snd x)); auto.
      * apply Hall. right. now right.
      * apply Hall. right. now left.
      * apply Hall. now left.
      * now apply Hy.
Qed.

Lemma rank_sorted (l : list (string * F64.t)) :
  numbers l -> StronglySorted not_below (Spec.rank l).
Proof.
  induction l as [|x r IH]; intros Hnum; cbn; [constructor|].
  inversion Hnum as [|? ? Hx Hr]; subst.
  apply insert_desc_sorted; [|now apply IH].
  constructor; [assumption|].
  apply Forall_forall. intros e He. apply rank_In in He.
  unfold numbers in Hr. rewrite Forall_forall in Hr. now apply Hr.
Qed.

(** and which keeps the entries of one confidence in their order. *)
Lemma insert_desc_stable (v : F64.t) (x : string * F64.t)
  (l : list (string * F64.t)) :
  filter (fun e => F64.eqb (snd e) v) (Spec.insert_desc x l)
  = filter (fun e => F64.eqb (snd e) v) (x :: l).
Proof.
  induction l as [|y r IH]; [reflexivity|].
  cbn [Spec.insert_desc].
  destruct (F64.gtb (snd y) (snd x)) eqn:Hgt; [|reflexivity].
  cbn [filter] in *. rewrite IH.
  destruct (F64.eqb (snd x) v) eqn:Hx, (F64.eqb (snd y) v) eqn:Hy;
    try reflexivity.
  exfalso. exact (gtb_eqb_absurd _ _ _ Hgt Hx Hy).
Qed.

Lemma rank_stable (v : F64.t) (l : list (string * F64.t)) :
  filter (fun e => F64.eqb (snd e) v) (Spec.rank l)
  = filter (fun e => F64.eqb (snd e) v) l.
Proof.
  induction l as [|x r IH]; [reflexivity|].
  cbn [Spec.rank fold_right]. fold (Spec.rank r).
  rewrite insert_desc_stable. cbn [filter]. now rewrite IH.
Qed.
End Ranking.

(** ** Running the script *)

Section Running.
Import App.

Lemma st_ok (w : World) (c : call) (s : state) :
  call_raises w c = None -> st w c s = (Ok tt, emit [c] s).
Proof. intros H. unfold st. now rewrite H. Qed.

Lemma emit_emit (cs cs' : list call) (s : state) :
  emit cs' (emit cs s) = emit (cs ++ cs') s.
Proof. unfold emit. cbn. now rewrite app_assoc. Qed.

Lemma shown_results_app (p q : list call) :
  shown_results (p ++ q) = shown_results p ++ shown_results q.
Proof. apply flat_map_app. Qed.

Lemma shown_top_app (p q : list call) :
  shown_top (p ++ q) = shown_top p ++ shown_top q.
Proof. apply flat_map_app. Qed.

Lemma shown_results_loop (d : Py.dict F64.t) :
  shown_results (loop_calls d) = Py.items d.
Proof.
  unfold loop_calls, Py.items. induction d as [|[k v] r IH]; [reflexivity|].
  cbn [flat_map]. rewrite shown_results_app, IH. reflexivity.
Qed.

Lemma shown_top_loop (d : Py.dict F64.t) : shown_top (loop_calls d) = [].
Proof.
  unfold loop_calls, Py.items. induction d as [|[k v] r IH]; [reflexivity|].
  cbn [flat_map]. rewrite shown_top_app, IH. reflexivity.
Qed.

(** With widgets that work, the loop writes one line and one bar per
    entry, in the order of the dictionary. *)
Lemma loop_runs (w : World) (d : Py.dict F64.t) (s : state) :
  widgets_work w ->
  for_each (Py.items d)
    (fun kv => bind (st w (write (fst kv) (snd kv)))
                 (fun _ => st w (progress (snd kv)))) s
  = (Ok tt, emit (loop_calls d) s).
Proof.
  intros Hw. unfold Py.items, loop_calls. revert s.
  induction d as [|kv r IH]; intros s.
  - cbn. unfold ret, emit. rewrite app_nil_r. now destruct s.
  - cbn [for_each]. unfold bind at 1. unfold bind at 1.
    rewrite st_ok by apply Hw. rewrite st_ok by apply Hw.
    rewrite IH, !emit_emit. reflexivity.
Qed.

(** What [display_results] does with widgets that work: the loop always
    runs to its end; the banner follows when [max] and the lookup return. *)
Lemma display_results_runs (w : World) (d : Py.dict F64.t) (s : state) :
  widgets_work w ->
  display_results w d s
  = let s1 := emit ([markdown "<div class=result-card>";
                     subheader "Classification Results"] ++ loop_calls d) s in
    match top_prediction d with
    | Raise e => (Raise e, s1)
    | Ok top =>
        match Py.getitem d top with
        | Raise e => (Raise e, s1)
        | Ok confidence =>
            (Ok tt, emit [success top confidence; markdown "</div>"] s1)
        end
    end.
Proof.
  intros Hw. unfold display_results.
  unfold bind at 1. rewrite st_ok by apply Hw.
  unfold bind at 1. rewrite st_ok by apply Hw.
  unfold bind at 1. rewrite loop_runs by assumption.
  rewrite !emit_emit. cbn [app].
  unfold bind at 1. unfold lift at 1.
  destruct (top_prediction d) as [top|e]; [|reflexivity].
  unfold bind at 1. unfold lift at 1.
  destruct (Py.getitem d top) as [confidence|e]; [|reflexivity].
  unfold bind. rewrite st_ok by apply Hw. rewrite st_ok by apply Hw.
  now rewrite !emit_emit.
Qed.

Lemma display_results_shown (w : World) (d : Py.dict F64.t) (s : state) :
  widgets_work w ->
  shown_results (page (snd (display_results w d s)))
  = shown_results (page s) ++ Py.items d.
Proof.
  intros Hw. rewrite display_results_runs by assumption. cbv zeta.
  destruct (top_prediction d) as [top|e];
    [destruct (Py.getitem d top) as [confidence|e]|];
    cbn [snd emit page]; rewrite ?shown_results_app, shown_results_loop;
    cbn; now rewrite ?app_nil_r.
Qed.
End Running.

(** ** The ranking the app displays *)

(** C1: for the fixed mapping of the four labels to 0.85, 0.10, 0.03 and
    0.02, the entry the app designates as top is ("Plastic Bottle", 0.85),
    and the lines it displays are the four entries in the given order,
    which is the descending one: sorting them as the specification says
    changes nothing, and their sum is within the tolerance of 1. A run on an
    upload that is opened and stored shows exactly these lines and this
    banner. *)
Theorem C1_mock_ranking :
  Py.items predictions
  = [ ("Plastic Bottle", F64.dec 85 100); ("Aluminum Can", F64.dec 10 100);
      ("Paper", F64.dec 3 100); ("Glass", F64.dec 2 100) ] /\
  top_prediction predictions = Ok "Plastic Bottle" /\
  Py.getitem predictions "Plastic Bottle" = Ok (F64.dec 85 100) /\
  Spec.rank (Py.items predictions) = Py.items predictions /\
  Spec.top (Py.items predictions) = Some "Plastic Bottle" /\
  Spec.needs_normalization (Py.values predictions) = false /\
  App.classification_shown Demo.jpeg_world
  = (Py.items predictions, [("Plastic Bottle", F64.dec 85 100)]).
Proof. vm_compute. repeat split. Qed.

(** The tie of the specification's example: for the scores [0.5, 0.5, 0.0]
    of "A", "B" and "C", [max] picks "A", the first of the sorted sequence. *)
Example abc_tie_break :
  top_prediction Demo.abc = Ok "A" /\
  Spec.rank (Py.items Demo.abc)
  = [("A", F64.dec 5 10); ("B", F64.dec 5 10); ("C", F64.of_Z 0)] /\
  Spec.top (Py.items Demo.abc) = Some "A".
Proof. vm_compute. repeat split. Qed.

(** ** Preprocessing in the tests *)

Section Preprocessing.
Import PIL.

(** A byte divided by 255 in [float32] lies between 0 and 1. *)
Lemma byte_over_255 (b : Byte.byte) :
  Np.in_unit_interval (F32.div (F32.of_byte b) (F32.of_Z 255)) = true.
Proof. destruct b; vm_compute; reflexivity. Qed.

Lemma length_flat_map_const {A B} (f : A -> list B) (n : nat) (l : list A) :
  (forall a, List.length (f a) = n) ->
  List.length (flat_map f l) = List.length l * n.
Proof.
  intros Hf. induction l as [|a r IH]; [reflexivity|].
  cbn [flat_map List.length]. rewrite length_app, Hf, IH. lia.
Qed.

(** The element [i * k + j] of the concatenation of blocks of length [k]
    is the element [j] of the block [i]. *)
Lemma nth_error_flat_map_seq {B} (f : nat -> list B) (k n a i j : nat) :
  (forall x, List.length (f x) = k) -> i < n -> j < k ->
  nth_error (flat_map f (seq a n)) (i * k + j) = nth_error (f (a + i)) j.
Proof.
  intros Hf. revert a i. induction n as [|n IH]; intros a i Hi Hj; [lia|].
  cbn [seq flat_map]. destruct i as [|i].
  - cbn [Nat.mul Nat.add]. rewrite Nat.add_0_r.
    apply nth_error_app1. now rewrite Hf.
  - rewrite nth_error_app2 by (rewrite Hf; cbn [Nat.mul]; lia).
    rewrite Hf. replace (S i * k + j - k) with (i * k + j) by (cbn [Nat.mul]; lia).
    rewrite IH by lia. now replace (S a + i) with (a + S i) by lia.
Qed.

Lemma to_rgb_mode (lib : Library) (img : Image) :
  mode (Tests.to_rgb lib img) = RGB.
Proof.
  unfold Tests.to_rgb.
  destruct (mode_eqb (mode img) RGB) eqn:E; cbn; [|reflexivity].
  destruct (mode img); try discriminate; reflexivity.
Qed.

Lemma array_float32_length (img : Image) :
  List.length (Np.data (Np.array_float32 img))
  = snd (size img) * (fst (size img) * bands (mode img)).
Proof.
  unfold Np.array_float32. cbn [Np.data].
  rewrite (length_flat_map_const _ (fst (size img) * bands (mode img))).
  - now rewrite length_seq.
  - intros y. rewrite (length_flat_map_const _ (bands (mode img))).
    + now rewrite length_seq.
    + intros x. now rewrite length_map, length_seq.
Qed.

(** Every element of the array is the element for a sample of the
    image. *)
Lemma array_float32_samples (img : Image) :
  Forall (fun v => exists x y c, v = Np.element (mode img) (px img x y c))
    (Np.data (Np.array_float32 img)).
Proof.
  apply Forall_forall. intros v Hv. unfold Np.array_float32 in Hv.
  cbn [Np.data] in Hv.
  apply in_flat_map in Hv. destruct Hv as (y & _ & Hv).
  apply in_flat_map in Hv. destruct Hv as (x & _ & Hv).
  apply in_map_iff in Hv. destruct Hv as (c & <- & _).
  now exists x, y, c.
Qed.

(** The array is laid out row by row, pixel by pixel, band by band. *)
Lemma array_float32_nth (img : Image) (x y c : nat) :
  y < snd (size img) -> x < fst (size img) -> c < bands (mode img) ->
  nth_error (Np.data (Np.array_float32 img))
    ((y * fst (size img) + x) * bands (mode img) + c)
  = Some (Np.element (mode img) (px img x y c)).
Proof.
  intros Hy Hx Hc. unfold Np.array_float32. cbn [Np.data].
  set (w := fst (size img)) in *. set (b := bands (mode img)) in *.
  replace ((y * w + x) * b + c) with (y * (w * b) + (x * b + c)) by lia.
  rewrite (nth_error_flat_map_seq _ (w * b)); [|intros y0|assumption|nia].
  - rewrite (nth_error_flat_map_seq _ b); [|intros x0|assumption|assumption].
    + cbn [Nat.add]. rewrite nth_error_map, nth_error_seq.
      destruct (Nat.ltb_spec c b); [reflexivity|lia].
    + now rewrite length_map, length_seq.
  - rewrite (length_flat_map_const _ b).
    + now rewrite length_seq.
    + intros x0. now rewrite length_map, length_seq.
Qed.

Lemma size_eqb_eq (a b : nat * nat) : size_eqb a b = true -> a = b.
Proof.
  unfold size_eqb. destruct a, b. cbn [fst snd]. intros H.
  apply andb_true_iff in H. destruct H as [H1 H2].
  apply Nat.eqb_eq in H1, H2. now subst.
Qed.

(** [resize] to a size with pixels returns an image of that size, in the
    mode of the image it was given. *)
Lemma resize_returns (lib : Library) (sz : nat * nat) (flt : Resampling)
  (img : Image) :
  0 < fst sz -> 0 < snd sz ->
  exists resized,
    resize lib sz flt img = Ok resized /\
    mode resized = mode img /\ size resized = sz.
Proof.
  intros H1 H2. unfold resize.
  destruct (size_eqb (size img) sz) eqn:E.
  - exists img. repeat split. now apply size_eqb_eq.
  - destruct (Nat.eqb_spec (fst sz) 0); [lia|].
    destruct (Nat.eqb_spec (snd sz) 0); [lia|].
    cbn [orb]. eexists. repeat split.
Qed.

(** A size without pixels is refused, unless the image has it already. *)
Lemma resize_refuses (lib : Library) (sz : nat * nat) (flt : Resampling)
  (img : Image) :
  fst sz = 0 \/ snd sz = 0 -> size img <> sz ->
  resize lib sz flt img
  = Raise (mkExn Exc.ValueError "height and width must be > 0").
Proof.
  intros Hz Hne. unfold resize.
  destruct (size_eqb (size img) sz) eqn:E.
  - apply size_eqb_eq in E. contradiction.
  - destruct Hz as [-> | ->]; cbn [Nat.eqb orb]; [reflexivity|].
    now rewrite orb_true_r.
Qed.

(** The tensor of the tests for the image [resize] returned. *)
Lemma preprocess_to_returns (lib : Library) (img : Image) (w h : nat) :
  0 < w -> 0 < h ->
  exists resized,
    resize lib (w, h) LANCZOS (Tests.to_rgb lib img) = Ok resized /\
    mode resized = RGB /\ size resized = (w, h) /\
    Tests.preprocess_to (w, h) lib img
    = Ok (Np.expand_dims
            (Np.true_divide (Np.array_float32 resized) (F32.of_Z 255)) 0).
Proof.
  intros Hw Hh.
  destruct (resize_returns lib (w, h) LANCZOS (Tests.to_rgb lib img))
    as (resized & Hr & Hm & Hs); [assumption..|].
  exists resized. rewrite to_rgb_mode in Hm. repeat split; try assumption.
  unfold Tests.preprocess_to. cbv zeta. now rewrite Hr.
Qed.

(** What the tensor holds, for an RGB image of the size [(w, h)]. *)
Lemma tensor_shape (img : Image) (w h : nat) :
  mode img = RGB -> size img = (w, h) ->
  Np.shape (Np.expand_dims
              (Np.true_divide (Np.array_float32 img) (F32.of_Z 255)) 0)
  = [1; h; w; 3].
Proof.
  intros Hm Hs. unfold Np.expand_dims, Np.true_divide, Np.array_float32.
  cbn [Np.shape firstn skipn app]. rewrite Hm, Hs. reflexivity.
Qed.

Lemma tensor_length (img : Image) (w h : nat) :
  mode img = RGB -> size img = (w, h) ->
  List.length (Np.data (Np.expand_dims
                 (Np.true_divide (Np.array_float32 img) (F32.of_Z 255)) 0))
  = h * (w * 3).
Proof.
  intros Hm Hs. unfold Np.expand_dims, Np.true_divide. cbn [Np.data].
  rewrite length_map, array_float32_length, Hm, Hs. reflexivity.
Qed.

Lemma tensor_nth (img : Image) (w h x y c : nat) :
  mode img = RGB -> size img = (w, h) ->
  y < h -> x < w -> c < 3 ->
  nth_error (Np.data (Np.expand_dims
               (Np.true_divide (Np.array_float32 img) (F32.of_Z 255)) 0))
    ((y * w + x) * 3 + c)
  = Some (F32.div (F32.of_byte (px img x y c)) (F32.of_Z 255)).
Proof.
  intros Hm Hs Hy Hx Hc. unfold Np.expand_dims, Np.true_divide.
  cbn [Np.data]. rewrite nth_error_map.
  pose proof (array_float32_nth img x y c) as H.
  rewrite Hm, Hs in H. cbn [fst snd bands] in H.
  rewrite H by assumption. reflexivity.
Qed.

Lemma tensor_unit_interval (img : Image) :
  mode img = RGB ->
  Forall (fun v => Np.in_unit_interval v = true)
    (Np.data (Np.expand_dims
                (Np.true_divide (Np.array_float32 img) (F32.of_Z 255)) 0)).
Proof.
  intros Hm. unfold Np.expand_dims, Np.true_divide. cbn [Np.data].
  apply Forall_forall. intros v Hv.
  apply in_map_iff in Hv. destruct Hv as (u & <- & Hu).
  pose proof (array_float32_samples img) as Hs.
  rewrite Forall_forall in Hs. destruct (Hs u Hu) as (x & y & c & ->).
  rewrite Hm. apply byte_over_255.
Qed.

(** C4: for every image the decoder returns and every target size with
    pixels, the decode step and the preprocessing of the tests return a
    tensor of shape (1, height, width, 3), which is (1, 224, 224, 3) at
    the size the tests use. It holds one element per sample of the RGB
    image that [resize] with the Lanczos filter returned, row by row, pixel
    by pixel, band by band; each element is that sample divided by 255 in
    float32, and lies in [0.0, 1.0]. *)
Theorem C4_preprocess_shape_and_range
  (lib : Library) (img : Image) (width height : nat)
  (Hwidth : 0 < width) (Hheight : 0 < height) :
  exists resized tensor,
    resize lib (width, height) LANCZOS (Tests.to_rgb lib img) = Ok resized /\
    mode resized = RGB /\ size resized = (width, height) /\
    Tests.preprocess_to (width, height) lib img = Ok tensor /\
    Np.shape tensor = [1; height; width; 3] /\
    List.length (Np.data tensor) = 1 * height * width * 3 /\
    (forall y x c, y < height -> x < width -> c < 3 ->
       nth_error (Np.data tensor) ((y * width + x) * 3 + c)
       = Some (F32.div (F32.of_byte (px resized x y c)) (F32.of_Z 255))) /\
    Forall (fun v => Np.in_unit_interval v = true) (Np.data tensor) /\
    Tests.preprocess lib img = Tests.preprocess_to (224, 224) lib img.
Proof.
  destruct (preprocess_to_returns lib img width height Hwidth Hheight)
    as (resized & Hr & Hm & Hs & Ht).
  exists resized. eexists. split; [exact Hr|]. split; [exact Hm|].
  split; [exact Hs|]. split; [exact Ht|]. repeat split.
  - now apply (tensor_shape resized width height).
  - rewrite (tensor_length resized width height) by assumption. lia.
  - intros y x c Hy Hx Hc. now apply (tensor_nth resized width height).
  - now apply tensor_unit_interval.
Qed.

(** The RGBA pixel resized to 2 x 1 with the stand-in pixel arithmetic. *)
Lemma C4_witness_rgba_pixel :
  exists resized tensor,
    resize Demo.lib (2, 1) LANCZOS (Tests.to_rgb Demo.lib Demo.rgba_pixel)
    = Ok resized /\
    mode resized = RGB /\ size resized = (2, 1) /\
    Tests.preprocess_to (2, 1) Demo.lib Demo.rgba_pixel = Ok tensor /\
    Np.shape tensor = [1; 1; 2; 3] /\
    List.length (Np.data tensor) = 1 * 1 * 2 * 3 /\
    (forall y x c, y < 1 -> x < 2 -> c < 3 ->
       nth_error (Np.data tensor) ((y * 2 + x) * 3 + c)
       = Some (F32.div (F32.of_byte (px resized x y c)) (F32.of_Z 255))) /\
    Forall (fun v => Np.in_unit_interval v = true) (Np.data tensor) /\
    Tests.preprocess Demo.lib Demo.rgba_pixel
    = Tests.preprocess_to (224, 224) Demo.lib Demo.rgba_pixel.
Proof.
  apply (C4_preprocess_shape_and_range Demo.lib Demo.rgba_pixel 2 1); lia.
Defined.

(** A target without pixels: [resize] raises and there is no tensor. *)
Example preprocess_to_empty_target :
  Tests.preprocess_to (0, 5) Demo.lib Demo.rgba_pixel
  = Raise (mkExn Exc.ValueError "height and width must be > 0").
Proof. reflexivity. Qed.

(** An image of the mode "1" as an array: booleans, not bytes. *)
Example array_of_bilevel_image :
  Np.data (Np.array_float32
             {| mode := M1; size := (2, 1);
                px := fun x _ _ => match x with 0 => Byte.xff | _ => Byte.x00 end |})
  = [F32.of_Z 1; F32.of_Z 0].
Proof. reflexivity. Qed.
End Preprocessing.

(** ** The script, step by step *)

Section Steps.
Import App.

Lemma bind_ok {A B} (m : M A) (f : A -> M B) (s s' : state) (a : A) :
  m s = (Ok a, s') -> bind m f s = f a s'.
Proof. intros H. unfold bind. now rewrite H. Qed.

Lemma bind_raise {A B} (m : M A) (f : A -> M B) (s s' : state) (e : exn) :
  m s = (Raise e, s') -> bind m f s = (Raise e, s').
Proof. intros H. unfold bind. now rewrite H. Qed.

Lemma bind_inv {A B} (m : M A) (f : A -> M B) (s s2 : state) (b : B) :
  bind m f s = (Ok b, s2) ->
  exists a s1, m s = (Ok a, s1) /\ f a s1 = (Ok b, s2).
Proof.
  unfold bind. destruct (m s) as [[a|e] s1]; [|discriminate].
  intros H. now exists a, s1.
Qed.

Lemma import_ok (w : World) (m : string) (s : state) :
  import_raises w m = None -> import_ w m s = (Ok tt, s).
Proof.
  intros H. unfold import_, lift, Tests.import_module. now rewrite H.
Qed.

Lemma import_fails (w : World) (m : string) (e : exn) (s : state) :
  import_raises w m = Some e -> import_ w m s = (Raise e, s).
Proof.
  intros H. unfold import_, lift, Tests.import_module. now rewrite H.
Qed.

Lemma imports_ok (w : World) (s : state) :
  all_installed w -> imports w s = (Ok tt, s).
Proof.
  intros H. unfold imports.
  repeat (erewrite bind_ok by (apply import_ok, H)).
  apply import_ok, H.
Qed.

Lemma page_top_ok (w : World) (s : state) :
  widgets_work w ->
  page_top w s
  = (Ok tt,
     emit [ set_page_config "Edge AI Recyclable Items Classifier";
            markdown "<style>...</style>";
            markdown "<h1>Edge AI Recyclable Items Classifier</h1>";
            markdown "---";
            header "Model Information";
            markdown "**Model Type**: TensorFlow Lite CNN ..." ] s).
Proof.
  intros H. unfold page_top.
  repeat (erewrite bind_ok by (apply st_ok, H)).
  rewrite st_ok by apply H. now rewrite !emit_emit.
Qed.

Lemma footer_ok (w : World) (s : state) :
  widgets_work w ->
  footer w s
  = (Ok tt,
     emit [ markdown "---"; markdown "### Instructions";
            markdown "1. **Upload Image** ... 4. Add proper image preprocessing" ] s).
Proof.
  intros H. unfold footer.
  repeat (erewrite bind_ok by (apply st_ok, H)).
  rewrite st_ok by apply H. now rewrite !emit_emit.
Qed.

(** The upload column once [Image.open] has returned [img] and the
    temporary file has been created: the image is shown and handed to
    [save] as it was decoded, the temporary file exists, and the outcome
    is the one of [save]. *)
Lemma column1_opened (w : World) (f : list Byte.byte) (img : PIL.Image)
  (s : state) :
  widgets_work w ->
  uploaded_file w = Some f ->
  Image_open w f = Ok img ->
  tmp_raises w = None ->
  column1 w s
  = (match Image_save w img (temp_name w) with
     | Some e => Raise e
     | None => Ok (Some (temp_name w))
     end,
     {| page := page s ++ [ header "Upload Image";
                            file_uploader "Choose an image of a recyclable item";
                            image img "Uploaded Image" ];
        tmp_files := temp_name w :: tmp_files s |}).
Proof.
  intros Hw Hup Hopen Htmp. unfold column1.
  erewrite bind_ok by (apply st_ok, Hw).
  erewrite bind_ok by (apply st_ok, Hw).
  rewrite Hup, Hopen. unfold lift at 1. unfold bind at 1.
  erewrite bind_ok by (apply st_ok, Hw).
  rewrite !emit_emit. cbn [app].
  unfold bind at 1, NamedTemporaryFile at 1. rewrite Htmp.
  unfold bind, save, ret. cbn [emit page tmp_files].
  destruct (Image_save w img (temp_name w)); reflexivity.
Qed.

(** The upload column when [Image.open] raises: the exception leaves the
    script as it is, before any temporary file exists. *)
Lemma column1_open_fails (w : World) (f : list Byte.byte) (e : exn)
  (s : state) :
  call_raises w (header "Upload Image") = None ->
  call_raises w (file_uploader "Choose an image of a recyclable item") = None ->
  uploaded_file w = Some f ->
  Image_open w f = Raise e ->
  column1 w s
  = (Raise e,
     emit [ header "Upload Image";
            file_uploader "Choose an image of a recyclable item" ] s).
Proof.
  intros Hh Hu Hup Hopen. unfold column1.
  erewrite bind_ok by (apply st_ok, Hh).
  erewrite bind_ok by (apply st_ok, Hu).
  rewrite Hup, Hopen. unfold lift at 1. unfold bind at 1.
  now rewrite !emit_emit.
Qed.

Lemma column1_no_upload (w : World) (s : state) :
  widgets_work w ->
  uploaded_file w = None ->
  column1 w s
  = (Ok None,
     emit [ header "Upload Image";
            file_uploader "Choose an image of a recyclable item";
            info "Please upload an image to classify." ] s).
Proof.
  intros Hw Hup. unfold column1.
  erewrite bind_ok by (apply st_ok, Hw).
  erewrite bind_ok by (apply st_ok, Hw).
  rewrite Hup.
  erewrite bind_ok by (apply st_ok, Hw).
  unfold ret. now rewrite !emit_emit.
Qed.

Lemma classification_ok (w : World) (s : state) :
  widgets_work w -> import_raises w "time" = None ->
  classification w s = (Ok tt, emit block_calls s).
Proof.
  intros Hw Htime. unfold classification.
  erewrite bind_ok by (apply st_ok, Hw).
  erewrite bind_ok by (apply st_ok, Hw).
  erewrite bind_ok by (apply import_ok, Htime).
  erewrite bind_ok by (apply st_ok, Hw).
  rewrite display_results_runs by assumption. cbv zeta.
  replace (top_prediction predictions) with (@Ok string "Plastic Bottle")
    by (vm_compute; reflexivity).
  replace (Py.getitem predictions "Plastic Bottle")
    with (@Ok F64.t (F64.dec 85 100)) by (vm_compute; reflexivity).
  rewrite !emit_emit. reflexivity.
Qed.

Lemma temp_name_truthy (w : World) : truthy (Some (temp_name w)) = true.
Proof. reflexivity. Qed.

Lemma cleanup_created (w : World) (pg : list call) :
  cleanup (Some (temp_name w))
    {| page := pg; tmp_files := [temp_name w] |}
  = (Ok tt, {| page := pg; tmp_files := [] |}).
Proof.
  unfold cleanup. rewrite temp_name_truthy.
  cbn [tmp_files existsb]. unfold path_eqb. rewrite String.eqb_refl.
  cbn [andb orb]. unfold unlink. cbn [page tmp_files filter].
  unfold path_eqb. now rewrite String.eqb_refl.
Qed.
End Steps.

(** ** Whole runs *)

Section Runs.
Import App.

Lemma column2_ok (w : World) (s : state) :
  widgets_work w -> import_raises w "time" = None ->
  column2 w (Some (temp_name w)) s
  = (Ok tt, emit (header "Classification Results" :: block_calls) s).
Proof.
  intros Hw Htime. unfold column2.
  erewrite bind_ok by (apply st_ok, Hw).
  rewrite temp_name_truthy. unfold try_except.
  rewrite classification_ok by assumption. now rewrite emit_emit.
Qed.

(** A run whose upload is opened and stored. *)
Lemma run_stored (w : World) (f : list Byte.byte) (img : PIL.Image) :
  all_installed w -> widgets_work w ->
  uploaded_file w = Some f -> Image_open w f = Ok img ->
  tmp_raises w = None ->
  Image_save w img (temp_name w) = None ->
  run w
  = (Ok tt,
     {| page := top_calls ++ columns :: upload_calls img
                ++ header "Classification Results" :: block_calls
                ++ footer_calls;
        tmp_files := [] |}).
Proof.
  intros Hi Hw Hup Hopen Htmp Hsave. unfold run, main.
  erewrite bind_ok by (apply imports_ok, Hi).
  erewrite bind_ok by (apply page_top_ok, Hw).
  erewrite bind_ok by (apply st_ok, Hw).
  erewrite bind_ok
    by (rewrite (column1_opened w f img) by assumption;
        rewrite Hsave; reflexivity).
  erewrite bind_ok by (apply column2_ok; [exact Hw | apply Hi]).
  erewrite bind_ok by (apply footer_ok, Hw).
  unfold emit. cbn [page tmp_files fresh app].
  rewrite cleanup_created. reflexivity.
Qed.

(** A run whose upload is opened and cannot be saved: the exception of
    [save] ends the script, and the temporary file stays. *)
Lemma run_save_fails (w : World) (f : list Byte.byte) (img : PIL.Image)
  (e : exn) :
  all_installed w -> widgets_work w ->
  uploaded_file w = Some f -> Image_open w f = Ok img ->
  tmp_raises w = None ->
  Image_save w img (temp_name w) = Some e ->
  run w
  = (Raise e,
     {| page := top_calls ++ columns :: upload_calls img;
        tmp_files := [temp_name w] |}).
Proof.
  intros Hi Hw Hup Hopen Htmp Hsave. unfold run, main.
  erewrite bind_ok by (apply imports_ok, Hi).
  erewrite bind_ok by (apply page_top_ok, Hw).
  erewrite bind_ok by (apply st_ok, Hw).
  erewrite bind_raise
    by (rewrite (column1_opened w f img) by assumption;
        rewrite Hsave; reflexivity).
  reflexivity.
Qed.

End Runs.

(** ** Temporary files *)

Section TempFiles.
Import App.

Lemma keeps_ret {A} (a : A) : keeps_files (ret a).
Proof. intros s. reflexivity. Qed.

Lemma keeps_lift {A} (r : result A) : keeps_files (lift r).
Proof. intros s. reflexivity. Qed.

Lemma keeps_st (w : World) (c : call) : keeps_files (st w c).
Proof. intros s. unfold st. now destruct (call_raises w c). Qed.

Lemma keeps_import (w : World) (m : string) : keeps_files (import_ w m).
Proof. apply keeps_lift. Qed.

Lemma keeps_bind {A B} (m : M A) (f : A -> M B) :
  keeps_files m -> (forall a, keeps_files (f a)) -> keeps_files (bind m f).
Proof.
  intros Hm Hf s. unfold bind. specialize (Hm s).
  destruct (m s) as [[a|e] s1]; cbn [snd] in *.
  - now rewrite Hf.
  - assumption.
Qed.

Lemma keeps_for_each {A} (l : list A) (body : A -> M unit) :
  (forall a, keeps_files (body a)) -> keeps_files (for_each l body).
Proof.
  intros Hb. induction l as [|a r IH]; cbn [for_each].
  - apply keeps_ret.
  - apply keeps_bind; [apply Hb | intros _; exact IH].
Qed.

Lemma keeps_try_except (body : M unit) (handler : exn -> M unit) :
  keeps_files body -> (forall e, keeps_files (handler e)) ->
  keeps_files (try_except body handler).
Proof.
  intros Hb Hh s. unfold try_except. specialize (Hb s).
  destruct (body s) as [[a|e] s1]; cbn [snd] in *; [assumption|].
  destruct (is_Exception e); cbn [snd].
  - now rewrite Hh.
  - assumption.
Qed.

Ltac keeps :=
  repeat match goal with
  | |- keeps_files (bind _ _) => apply keeps_bind; [|intro]
  | |- keeps_files (st _ _) => apply keeps_st
  | |- keeps_files (import_ _ _) => apply keeps_import
  | |- keeps_files (ret _) => apply keeps_ret
  | |- keeps_files (lift _) => apply keeps_lift
  | |- keeps_files (for_each _ _) => apply keeps_for_each; intro
  end.

Lemma keeps_imports (w : World) : keeps_files (imports w).
Proof. unfold imports. keeps. Qed.

Lemma keeps_page_top (w : World) : keeps_files (page_top w).
Proof. unfold page_top. keeps. Qed.

Lemma keeps_footer (w : World) : keeps_files (footer w).
Proof. unfold footer. keeps. Qed.

Lemma keeps_display_results (w : World) (d : Py.dict F64.t) :
  keeps_files (display_results w d).
Proof. unfold display_results. keeps. Qed.

Lemma keeps_classification (w : World) : keeps_files (classification w).
Proof.
  unfold classification. keeps. apply keeps_display_results.
Qed.

Lemma keeps_handler (w : World) (e : exn) : keeps_files (handler w e).
Proof. unfold handler. keeps. Qed.

Lemma keeps_column2 (w : World) (p : option string) :
  keeps_files (column2 w p).
Proof.
  unfold column2. apply keeps_bind; [apply keeps_st|intros _].
  destruct (truthy p).
  - apply keeps_try_except; [apply keeps_classification | apply keeps_handler].
  - apply keeps_st.
Qed.

(** The upload column creates at most the one temporary file whose name
    it returns. *)
Lemma column1_files (w : World) (s : state) :
  match column1 w s with
  | (Ok (Some p), s') =>
      p = temp_name w /\ tmp_files s' = temp_name w :: tmp_files s
  | (Ok None, s') => tmp_files s' = tmp_files s
  | (Raise _, _) => True
  end.
Proof.
  unfold column1, bind.
  destruct (st w (header "Upload Image") s) as [[[]|e] s1] eqn:E1; [|exact I].
  pose proof (keeps_st w (header "Upload Image") s) as K1. rewrite E1 in K1. cbn [snd] in K1.
  destruct (st w (file_uploader "Choose an image of a recyclable item") s1)
    as [[[]|e] s2] eqn:E2; [|exact I].
  pose proof (keeps_st w (file_uploader "Choose an image of a recyclable item") s1)
    as K2. rewrite E2 in K2. cbn [snd] in K2.
  destruct (uploaded_file w) as [f|].
  - unfold lift. destruct (Image_open w f) as [img|e]; [|exact I].
    destruct (st w (image img "Uploaded Image") s2) as [[[]|e] s3] eqn:E3;
      [|exact I].
    pose proof (keeps_st w (image img "Uploaded Image") s2) as K3.
    rewrite E3 in K3. cbn [snd] in K3.
    unfold NamedTemporaryFile, save, ret.
    destruct (tmp_raises w); [exact I|]. cbn [tmp_files].
    destruct (Image_save w img (temp_name w)); [exact I|].
    cbn [tmp_files]. split; [reflexivity|]. congruence.
  - destruct (st w (info "Please upload an image to classify.") s2)
      as [[[]|e] s3] eqn:E3; [|exact I].
    pose proof (keeps_st w (info "Please upload an image to classify.") s2) as K3.
    rewrite E3 in K3. cbn [snd] in K3.
    unfold ret. congruence.
Qed.

Lemma cleanup_removes (w : World) (s : state) :
  tmp_files s = [temp_name w] ->
  cleanup (Some (temp_name w)) s = (Ok tt, {| page := page s; tmp_files := [] |}).
Proof.
  intros H. destruct s as [pg fs]. cbn in H. subst fs. apply cleanup_created.
Qed.

(** Every run that returns has removed its temporary file: this covers
    the run without upload, the run that classifies, and the run whose
    classification block failed and was handled. *)
Lemma normal_return_leaves_no_temp_file (w : World) :
  fst (run w) = Ok tt -> tmp_files (snd (run w)) = [].
Proof.
  unfold run, main. intros H.
  destruct (bind (imports w) _ fresh) as [r sf] eqn:E. cbn [fst snd] in *.
  subst r.
  apply bind_inv in E. destruct E as (? & s1 & E1 & E).
  pose proof (keeps_imports w fresh) as K1. rewrite E1 in K1. cbn in K1.
  apply bind_inv in E. destruct E as (? & s2 & E2 & E).
  pose proof (keeps_page_top w s1) as K2. rewrite E2 in K2. cbn [snd] in K2.
  apply bind_inv in E. destruct E as (? & s3 & E3 & E).
  pose proof (keeps_st w columns s2) as K3. rewrite E3 in K3. cbn [snd] in K3.
  apply bind_inv in E. destruct E as (p & s4 & E4 & E).
  pose proof (column1_files w s3) as K4. rewrite E4 in K4.
  apply bind_inv in E. destruct E as (? & s5 & E5 & E).
  pose proof (keeps_column2 w p s4) as K5. rewrite E5 in K5. cbn [snd] in K5.
  apply bind_inv in E. destruct E as (? & s6 & E6 & E).
  pose proof (keeps_footer w s5) as K6. rewrite E6 in K6. cbn [snd] in K6.
  destruct p as [p|].
  - destruct K4 as [-> K4].
    rewrite cleanup_removes in E by congruence.
    now inversion E.
  - cbn in E. inversion E. congruence.
Qed.
End TempFiles.

(** ** Decoding, imports, failures and the upload *)

Section Claims.
Import App.

Lemma to_rgb_bands (lib : PIL.Library) (img : PIL.Image) :
  PIL.bands (PIL.mode (Tests.to_rgb lib img)) = 3.
Proof. now rewrite to_rgb_mode. Qed.

(** C5 does not hold of the app: for an RGBA PNG the image that
    [Image.open] returns has 4 channels, and the app shows it and hands it
    to [save] as decoded, without conversion; writing it as JPEG then
    raises. The decode step of the tests converts the same image to 3
    channels. *)
Theorem C5_app_keeps_decoded_mode :
  Image_open Demo.png_world Demo.png_upload = Ok Demo.rgba_pixel /\
  PIL.bands (PIL.mode Demo.rgba_pixel) = 4 /\
  run Demo.png_world
  = (Raise (mkExn Exc.OSError "cannot write mode RGBA as JPEG"),
     {| page := top_calls ++ columns :: upload_calls Demo.rgba_pixel;
        tmp_files := [Demo.temp_path] |}) /\
  PIL.bands (PIL.mode (Tests.to_rgb Demo.lib Demo.rgba_pixel)) = 3.
Proof. vm_compute. repeat split. Qed.

(** C6 does not hold of the app: [import cv2] on line 4 is not guarded, so
    that when OpenCV cannot be imported (the module is not installed, or a
    library it needs is missing: an [ImportError] either way) the script
    ends with that import error before anything is rendered, whatever the
    upload. The tests guard the same import:
    [test_opencv_import_handling] returns [False] and [test_imports]
    returns [True]. *)
Theorem C6_app_stops_without_cv2 (w : World) (e : exn)
  (Hstreamlit : import_raises w "streamlit" = None)
  (Htensorflow : import_raises w "tensorflow" = None)
  (Hnumpy : import_raises w "numpy" = None)
  (Hpil : import_raises w "PIL" = None)
  (Htempfile : import_raises w "tempfile" = None)
  (Hos : import_raises w "os" = None)
  (Hcv2 : import_raises w "cv2" = Some e)
  (Himport : is_ImportError e = true) :
  run w = (Raise e, fresh) /\
  Tests.test_opencv_import_handling (import_raises w) = Ok false /\
  Tests.test_imports (import_raises w) = Ok true.
Proof.
  repeat split.
  - unfold run, main, imports.
    erewrite bind_raise; [reflexivity|].
    erewrite bind_ok by (apply import_ok, Hstreamlit).
    erewrite bind_ok by (apply import_ok, Htensorflow).
    erewrite bind_ok by (apply import_ok, Hnumpy).
    erewrite bind_raise by (apply import_fails, Hcv2).
    reflexivity.
  - unfold Tests.test_opencv_import_handling, Tests.try_import,
      Tests.import_module. now rewrite Hcv2, Himport.
  - unfold Tests.test_imports, Tests.try_import, Tests.import_module.
    now rewrite Hstreamlit, Htensorflow, Hnumpy, Hcv2, Himport, Hpil,
      Htempfile, Hos.
Qed.

Lemma C6_witness_without_cv2 :
  run Demo.no_cv2_world
  = (Raise (mkExn Exc.ModuleNotFoundError "No module named 'cv2'"), fresh) /\
  Tests.test_opencv_import_handling (import_raises Demo.no_cv2_world)
  = Ok false /\
  Tests.test_imports (import_raises Demo.no_cv2_world) = Ok true.
Proof.
  apply (C6_app_stops_without_cv2 Demo.no_cv2_world
           (mkExn Exc.ModuleNotFoundError "No module named 'cv2'"));
    reflexivity.
Defined.

(** C9 does not hold of the app: the temporary file is removed only by
    the last lines of the script. When [image.save] raises, the script
    ends there and the file it created stays on disk. *)
Theorem C9_temp_file_stays_when_save_raises
  (w : World) (f : list Byte.byte) (img : PIL.Image) (e : exn)
  (Hinstalled : all_installed w)
  (Hwidgets : widgets_work w)
  (Hupload : uploaded_file w = Some f)
  (Hopen : Image_open w f = Ok img)
  (Hcreated : tmp_raises w = None)
  (Hsave : Image_save w img (temp_name w) = Some e) :
  fst (run w) = Raise e /\ tmp_files (snd (run w)) = [temp_name w].
Proof.
  rewrite (run_save_fails w f img e) by assumption. split; reflexivity.
Qed.

Lemma C9_witness_rgba_png :
  fst (run Demo.png_world)
  = Raise (mkExn Exc.OSError "cannot write mode RGBA as JPEG") /\
  tmp_files (snd (run Demo.png_world)) = [temp_name Demo.png_world].
Proof.
  apply (C9_temp_file_stays_when_save_raises
           Demo.png_world Demo.png_upload Demo.rgba_pixel).
  - intros m. reflexivity.
  - intros c. reflexivity.
  - reflexivity.
  - reflexivity.
  - reflexivity.
  - reflexivity.
Defined.

(** Two uploads the uploader returns, two different outcomes: the JPEG is
    classified and the four results are displayed; for the RGBA PNG, and
    for a file of no bytes, the script ends before the classification and
    no result is displayed. *)
Lemma C10_counterexample_upload_decides :
  uploaded_file Demo.jpeg_world = Some Demo.jpeg_upload /\
  uploaded_file Demo.png_world = Some Demo.png_upload /\
  uploaded_file Demo.empty_world = Some Demo.empty_upload /\
  classification_shown Demo.jpeg_world
  = (Py.items predictions, [("Plastic Bottle", F64.dec 85 100)]) /\
  classification_shown Demo.png_world = ([], []) /\
  classification_shown Demo.empty_world = ([], []) /\
  classification_shown Demo.jpeg_world <> classification_shown Demo.png_world /\
  classification_shown Demo.jpeg_world <> classification_shown Demo.empty_world.
Proof. vm_compute. repeat split; discriminate. Qed.

(** C10, as the code has it: for every two uploads that are opened and
    written to the temporary file, the classification result displayed is
    the same, the fixed list of the four entries with "Plastic Bottle" at
    0.85 on top; the script returns and has removed the temporary file. *)
Theorem C10_result_same_for_stored_uploads (w1 w2 : World)
  (Hinstalled1 : all_installed w1) (Hwidgets1 : widgets_work w1)
  (Hstored1 : upload_stored w1)
  (Hinstalled2 : all_installed w2) (Hwidgets2 : widgets_work w2)
  (Hstored2 : upload_stored w2) :
  classification_shown w1 = classification_shown w2 /\
  classification_shown w1
  = ([ ("Plastic Bottle", F64.dec 85 100); ("Aluminum Can", F64.dec 10 100);
       ("Paper", F64.dec 3 100); ("Glass", F64.dec 2 100) ],
     [ ("Plastic Bottle", F64.dec 85 100) ]) /\
  fst (run w1) = Ok tt /\ fst (run w2) = Ok tt /\
  tmp_files (snd (run w1)) = [] /\ tmp_files (snd (run w2)) = [].
Proof.
  destruct Hstored1 as (f1 & img1 & Hup1 & Hopen1 & Htmp1 & Hsave1).
  destruct Hstored2 as (f2 & img2 & Hup2 & Hopen2 & Htmp2 & Hsave2).
  unfold classification_shown.
  rewrite (run_stored w1 f1 img1), (run_stored w2 f2 img2) by assumption.
  cbn [fst snd page tmp_files].
  assert (Hshown : forall img,
    (shown_results (top_calls ++ columns :: upload_calls img
                    ++ header "Classification Results" :: block_calls
                    ++ footer_calls),
     shown_top (top_calls ++ columns :: upload_calls img
                ++ header "Classification Results" :: block_calls
                ++ footer_calls))
    = ([ ("Plastic Bottle", F64.dec 85 100); ("Aluminum Can", F64.dec 10 100);
         ("Paper", F64.dec 3 100); ("Glass", F64.dec 2 100) ],
       [ ("Plastic Bottle", F64.dec 85 100) ])).
  { intros img. vm_compute. reflexivity. }
  rewrite !Hshown. repeat split.
Qed.

Lemma C10_witness_jpeg_and_bmp :
  classification_shown Demo.jpeg_world = classification_shown Demo.bmp_world /\
  classification_shown Demo.jpeg_world
  = ([ ("Plastic Bottle", F64.dec 85 100); ("Aluminum Can", F64.dec 10 100);
       ("Paper", F64.dec 3 100); ("Glass", F64.dec 2 100) ],
     [ ("Plastic Bottle", F64.dec 85 100) ]) /\
  fst (run Demo.jpeg_world) = Ok tt /\ fst (run Demo.bmp_world) = Ok tt /\
  tmp_files (snd (run Demo.jpeg_world)) = [] /\
  tmp_files (snd (run Demo.bmp_world)) = [].
Proof.
  apply (C10_result_same_for_stored_uploads Demo.jpeg_world Demo.bmp_world).
  - intros m. reflexivity.
  - intros c. reflexivity.
  - exists Demo.jpeg_upload, Demo.rgb_pixel. repeat split.
  - intros m. reflexivity.
  - intros c. reflexivity.
  - exists Demo.bmp_upload, Demo.grey_pixels. repeat split.
Defined.
End Claims.

(** ** Sample runs *)

Section Samples.
Import App.

(** Without an upload the script shows its two hints and returns. *)
Example run_without_upload :
  run Demo.no_upload
  = (Ok tt,
     {| page := top_calls
                ++ [ columns; header "Upload Image";
                     file_uploader "Choose an image of a recyclable item";
                     info "Please upload an image to classify.";
                     header "Classification Results";
                     info "Upload an image to see classification results." ]
                ++ footer_calls;
        tmp_files := [] |}).
Proof. vm_compute. reflexivity. Qed.

(** The grey BMP is classified like the JPEG, as "Plastic Bottle". *)
Example run_on_grey_bmp :
  run Demo.bmp_world
  = (Ok tt,
     {| page := top_calls ++ columns :: upload_calls Demo.grey_pixels
                ++ header "Classification Results" :: block_calls
                ++ footer_calls;
        tmp_files := [] |}).
Proof. vm_compute. reflexivity. Qed.

(** A failure inside the block is handled: nothing is raised, the
    temporary file is removed all the same, the two lines written before
    the failure stay on the page, and there is no banner. *)
Example run_with_failing_bar :
  fst (run Demo.bar_world) = Ok tt /\
  tmp_files (snd (run Demo.bar_world)) = [] /\
  classification_shown Demo.bar_world
  = ([("Plastic Bottle", F64.dec 85 100); ("Aluminum Can", F64.dec 10 100)],
     []).
Proof. vm_compute. repeat split. Qed.

(** The RGBA pixel through the preprocessing of the tests, with the
    stand-in pixel arithmetic and a target of 2 x 1: six elements, each
    128/255 in float32. *)
Example preprocess_rgba_pixel :
  Tests.preprocess_to (2, 1) Demo.lib Demo.rgba_pixel
  = Ok {| Np.shape := [1; 1; 2; 3];
          Np.data := repeat (S754_finite false 8421505 (-24)) 6 |}.
Proof. vm_compute. reflexivity. Qed.

(** An exception that does not derive from [Exception] passes the
    [except] clause: the interrupt of the user, and the exception with
    which [st.stop] ends a script. *)
Example keyboard_interrupt_is_not_caught :
  is_Exception (mkExn Exc.KeyboardInterrupt "stop") = false /\
  try_except (lift (Raise (mkExn Exc.KeyboardInterrupt "stop")))
    (handler Demo.no_upload) fresh
  = (Raise (mkExn Exc.KeyboardInterrupt "stop"), fresh).
Proof. vm_compute. repeat split. Qed.

Example stop_exception_is_not_caught :
  is_Exception (mkExn Exc.StopException "stop") = false /\
  is_Exception (mkExn Exc.RerunException "rerun") = false /\
  is_Exception (mkExn Exc.CancelledError "cancelled") = false /\
  is_Exception (mkExn Exc.StreamlitAPIException "bad value") = true /\
  try_except (lift (Raise (mkExn Exc.StopException "stop")))
    (handler Demo.no_upload) fresh
  = (Raise (mkExn Exc.StopException "stop"), fresh).
Proof. vm_compute. repeat split. Qed.

(** The message of a [KeyError] is the key as [repr] writes it. *)
Example missing_key :
  Py.getitem predictions "Wood" = Raise (mkExn Exc.KeyError "'Wood'").
Proof. reflexivity. Qed.
End Samples.

(** * Further properties of the app *)

Section Imports.
Import App Script.

Lemma first_failure_some (w : World) (ms : list string) (m : string) (e : exn) :
  first_failure w ms = Some (m, e) -> In m ms /\ import_raises w m = Some e.
Proof.
  induction ms as [|m0 r IH]; cbn [first_failure]; [discriminate|].
  destruct (import_raises w m0) as [e0|] eqn:E.
  - intros H. inversion H. subst. split; [now left | exact E].
  - intros H. destruct (IH H) as [Hin He]. split; [now right | exact He].
Qed.

(** The imports of lines 1-7 stop at the first one that raises. *)
Lemma imports_result (w : World) (s : state) :
  imports w s
  = (match first_failure w imported_modules with
     | Some (_, e) => Raise e
     | None => Ok tt
     end, s).
Proof.
  unfold imports, imported_modules, bind, import_, lift, Tests.import_module.
  cbn [first_failure].
  destruct (import_raises w "streamlit"); [reflexivity|].
  destruct (import_raises w "tensorflow"); [reflexivity|].
  destruct (import_raises w "numpy"); [reflexivity|].
  destruct (import_raises w "cv2"); [reflexivity|].
  destruct (import_raises w "PIL"); [reflexivity|].
  destruct (import_raises w "tempfile"); [reflexivity|].
  destruct (import_raises w "os"); reflexivity.
Qed.

(** X1: when one of the seven imports of the script raises (a module that
    is not installed, or one whose loading fails), the run ends with the
    exception of the first import that raises, in import order, before
    anything is rendered and before any file is created. *)
Theorem run_stops_at_first_failing_import (w : World) (m : string) (e : exn)
  (Hfailure : first_failure w imported_modules = Some (m, e)) :
  run w = (Raise e, fresh) /\
  In m imported_modules /\
  import_raises w m = Some e.
Proof.
  split.
  - unfold run, main. erewrite bind_raise; [reflexivity|].
    now rewrite imports_result, Hfailure.
  - now apply first_failure_some.
Qed.

Lemma run_stops_at_first_failing_import_witness :
  run Cases.without_tensorflow
  = (Raise (mkExn Exc.ModuleNotFoundError "No module named 'tensorflow'"),
     fresh) /\
  In "tensorflow" imported_modules /\
  import_raises Cases.without_tensorflow "tensorflow"
  = Some (mkExn Exc.ModuleNotFoundError "No module named 'tensorflow'").
Proof.
  apply (run_stops_at_first_failing_import Cases.without_tensorflow).
  reflexivity.
Defined.
End Imports.

Section Calls.
Import App Script.

Ltac listed := unfold top_calls, upload_calls, handler_calls, footer_calls;
  cbn [In app]; repeat (first [left; reflexivity | right]).

Lemma bind_assoc {A B C} (m : M A) (f : A -> M B) (g : B -> M C) (s : state) :
  bind (bind m f) g s = bind m (fun a => bind (f a) g) s.
Proof. unfold bind. now destruct (m s) as [[a|e] s1]. Qed.

Lemma page_top_runs (w : World) (s : state) :
  calls_work w top_calls -> page_top w s = (Ok tt, emit top_calls s).
Proof.
  intros H. unfold page_top.
  repeat (erewrite bind_ok by (apply st_ok, H; listed)).
  rewrite st_ok by (apply H; listed). now rewrite !emit_emit.
Qed.

Lemma footer_runs (w : World) (s : state) :
  calls_work w footer_calls -> footer w s = (Ok tt, emit footer_calls s).
Proof.
  intros H. unfold footer.
  repeat (erewrite bind_ok by (apply st_ok, H; listed)).
  rewrite st_ok by (apply H; listed). now rewrite !emit_emit.
Qed.

Lemma handler_runs (w : World) (e : exn) (s : state) :
  calls_work w (handler_calls e) ->
  handler w e s = (Ok tt, emit (handler_calls e) s).
Proof.
  intros H. unfold handler.
  erewrite bind_ok by (apply st_ok, H; listed).
  rewrite st_ok by (apply H; listed). now rewrite !emit_emit.
Qed.

Lemma column1_stores (w : World) (f : list Byte.byte) (img : PIL.Image)
  (s : state) :
  calls_work w (upload_calls img) ->
  uploaded_file w = Some f ->
  Image_open w f = Ok img ->
  tmp_raises w = None ->
  Image_save w img (temp_name w) = None ->
  column1 w s
  = (Ok (Some (temp_name w)),
     {| page := page s ++ upload_calls img;
        tmp_files := temp_name w :: tmp_files s |}).
Proof.
  intros H Hup Hopen Htmp Hsave. unfold column1.
  erewrite bind_ok by (apply st_ok, H; listed).
  erewrite bind_ok by (apply st_ok, H; listed).
  rewrite Hup, Hopen. unfold lift at 1. unfold bind at 1.
  erewrite bind_ok by (apply st_ok, H; listed).
  rewrite !emit_emit. cbn [app].
  unfold bind at 1, NamedTemporaryFile at 1. rewrite Htmp.
  unfold bind, save, ret. cbn [emit page tmp_files]. now rewrite Hsave.
Qed.

(** The script up to the start of the classification block, for an upload
    that is opened and stored. *)
Lemma run_reaches_block (w : World) (f : list Byte.byte) (img : PIL.Image) :
  first_failure w imported_modules = None ->
  calls_work w top_calls ->
  call_raises w columns = None ->
  calls_work w (upload_calls img) ->
  call_raises w (header "Classification Results") = None ->
  uploaded_file w = Some f ->
  Image_open w f = Ok img ->
  tmp_raises w = None ->
  Image_save w img (temp_name w) = None ->
  run w
  = bind (try_except (classification w) (handler w))
      (fun _ => bind (footer w) (fun _ => cleanup (Some (temp_name w))))
      (block_start w img).
Proof.
  intros Hi Htop Hcol Hup Hhdr Hf Hopen Htmp Hsave. unfold run, main.
  erewrite bind_ok by (rewrite imports_result, Hi; reflexivity).
  erewrite bind_ok by (apply page_top_runs, Htop).
  erewrite bind_ok by (apply st_ok, Hcol).
  erewrite bind_ok by (apply (column1_stores w f img); assumption).
  unfold column2. rewrite bind_assoc.
  erewrite bind_ok by (apply st_ok, Hhdr).
  rewrite temp_name_truthy. unfold block_start, emit, fresh.
  cbn [page tmp_files app]. rewrite <- !app_assoc. reflexivity.
Qed.

(** A run whose upload cannot be opened, with the calls before it
    working. *)
Lemma run_stops_at_open (w : World) (f : list Byte.byte) (e0 : exn) :
  first_failure w imported_modules = None ->
  calls_work w top_calls ->
  call_raises w columns = None ->
  call_raises w (header "Upload Image") = None ->
  call_raises w (file_uploader "Choose an image of a recyclable item") = None ->
  uploaded_file w = Some f ->
  Image_open w f = Raise e0 ->
  run w
  = (Raise e0,
     {| page := top_calls
                ++ [ columns; header "Upload Image";
                     file_uploader "Choose an image of a recyclable item" ];
        tmp_files := [] |}).
Proof.
  intros Hi Htop Hcol Hh Hu Hup Hopen. unfold run, main.
  erewrite bind_ok by (rewrite imports_result, Hi; reflexivity).
  erewrite bind_ok by (apply page_top_runs, Htop).
  erewrite bind_ok by (apply st_ok, Hcol).
  erewrite bind_raise by (apply (column1_open_fails w f e0); assumption).
  rewrite !emit_emit. unfold emit, fresh. cbn [page tmp_files app].
  reflexivity.
Qed.

(** A run whose classification block raises an [Exception]. *)
Lemma run_handles_block_failure
  (w : World) (f : list Byte.byte) (img : PIL.Image) (e : exn) (s' : state) :
  first_failure w imported_modules = None ->
  calls_work w top_calls ->
  call_raises w columns = None ->
  calls_work w (upload_calls img) ->
  call_raises w (header "Classification Results") = None ->
  calls_work w (handler_calls e) ->
  calls_work w footer_calls ->
  uploaded_file w = Some f ->
  Image_open w f = Ok img ->
  tmp_raises w = None ->
  Image_save w img (temp_name w) = None ->
  classification w (block_start w img) = (Raise e, s') ->
  is_Exception e = true ->
  run w
  = (Ok tt,
     {| page := page s' ++ handler_calls e ++ footer_calls;
        tmp_files := [] |}).
Proof.
  intros Hi Htop Hcol Hup Hhdr Hhandler Hfooter Hf Hopen Htmp Hsave Hfail Hexc.
  rewrite (run_reaches_block w f img) by assumption.
  pose proof (keeps_classification w (block_start w img)) as Hfiles.
  rewrite Hfail in Hfiles. cbn [snd block_start tmp_files] in Hfiles.
  erewrite bind_ok
    by (unfold try_except; rewrite Hfail, Hexc; apply handler_runs, Hhandler).
  erewrite bind_ok by (apply footer_runs, Hfooter).
  rewrite emit_emit. destruct s' as [pg fs]. cbn in Hfiles. subst fs.
  unfold emit. cbn [page tmp_files]. apply cleanup_created.
Qed.

(** Failures are not wrapped: an upload of no bytes makes [Image.open]
    raise, and that exception ends the run as it is; its class is the
    decoder's, it is no [ClassificationError], and its message names no
    stage. *)
Lemma C7_counterexample_no_wrapper :
  uploaded_file Demo.empty_world = Some [] /\
  fst (run Demo.empty_world) = Raise Demo.decode_error /\
  exn_class Demo.decode_error = "UnidentifiedImageError" /\
  isinstance Demo.decode_error "ClassificationError" = false /\
  exn_msg Demo.decode_error = "cannot identify image file".
Proof. vm_compute. repeat split. Qed.

(** C7, as the code has it, for a run that reaches the upload (the imports
    and the calls before it work) and has an upload. When [Image.open]
    raises, its exception ends the run as it is, before any temporary file
    exists and before the classification block. When the upload is opened
    and stored and a call of the classification block raises an exception
    that derives from [Exception], the [except] clause catches it: the run
    returns normally, the page shows what the block had rendered up to the
    failure, then "Error during classification: " followed by the message
    of the cause, then a hint, then the footer; nothing is raised, the
    block is not run again, and the temporary file has been removed. *)
Theorem C7_block_failure_is_displayed
  (w : World) (f : list Byte.byte)
  (Himports : first_failure w imported_modules = None)
  (Htop : calls_work w top_calls)
  (Hcolumns : call_raises w columns = None)
  (Hcolumn : call_raises w (header "Upload Image") = None)
  (Huploader : call_raises w
                 (file_uploader "Choose an image of a recyclable item") = None)
  (Hupload : uploaded_file w = Some f) :
  (forall e0,
     Image_open w f = Raise e0 ->
     run w
     = (Raise e0,
        {| page := top_calls
                   ++ [ columns; header "Upload Image";
                        file_uploader "Choose an image of a recyclable item" ];
           tmp_files := [] |})) /\
  (forall img e s',
     Image_open w f = Ok img ->
     call_raises w (image img "Uploaded Image") = None ->
     tmp_raises w = None ->
     Image_save w img (temp_name w) = None ->
     call_raises w (header "Classification Results") = None ->
     classification w (block_start w img) = (Raise e, s') ->
     is_Exception e = true ->
     calls_work w (handler_calls e) ->
     calls_work w footer_calls ->
     run w
     = (Ok tt,
        {| page := page s'
                   ++ [ error (String.append "Error during classification: "
                                 (exn_msg e));
                        info "Make sure you have a trained TFLite model in the correct location." ]
                   ++ footer_calls;
           tmp_files := [] |})).
Proof.
  split.
  - intros e0 Hopen. now apply (run_stops_at_open w f e0).
  - intros img e s' Hopen Himage Htmp Hsave Hheader Hfail Hexc Hhandler Hfooter.
    apply (run_handles_block_failure w f img e s'); try assumption.
    intros c [<-|[<-|[<-|[]]]]; assumption.
Qed.

Lemma C7_witness_progress_fails :
  run Demo.bar_world
  = (Ok tt,
     {| page := page Cases.bar_state
                ++ [ error "Error during classification: Progress Value has invalid value";
                     info "Make sure you have a trained TFLite model in the correct location." ]
                ++ footer_calls;
        tmp_files := [] |}).
Proof.
  refine (proj2 (C7_block_failure_is_displayed Demo.bar_world Demo.jpeg_upload
                   _ _ _ _ _ _)
            Demo.rgb_pixel Demo.bar_error Cases.bar_state _ _ _ _ _ _ _ _ _).
  - reflexivity.
  - intros c Hc. cbn in Hc. intuition (subst; reflexivity).
  - reflexivity.
  - reflexivity.
  - reflexivity.
  - reflexivity.
  - reflexivity.
  - reflexivity.
  - reflexivity.
  - reflexivity.
  - reflexivity.
  - vm_compute. reflexivity.
  - reflexivity.
  - intros c Hc. cbn in Hc. intuition (subst; reflexivity).
  - intros c Hc. cbn in Hc. intuition (subst; reflexivity).
Defined.

(** X2: a failure inside the classification block does not end the run.
    When the upload is opened and stored and a call of the block raises an
    exception that derives from [Exception], the run returns normally: the
    page shows what the block had rendered, then the error message with
    the text of the cause and the hint, then the footer; the temporary
    file has been removed. *)
Theorem run_survives_block_failure
  (w : World) (f : list Byte.byte) (img : PIL.Image) (e : exn) (s' : state)
  (Himports : first_failure w imported_modules = None)
  (Htop : calls_work w top_calls)
  (Hcolumns : call_raises w columns = None)
  (Hupload_calls : calls_work w (upload_calls img))
  (Hheader : call_raises w (header "Classification Results") = None)
  (Hhandler : calls_work w (handler_calls e))
  (Hfooter : calls_work w footer_calls)
  (Hupload : uploaded_file w = Some f)
  (Hopen : Image_open w f = Ok img)
  (Hcreated : tmp_raises w = None)
  (Hsave : Image_save w img (temp_name w) = None)
  (Hfail : classification w (block_start w img) = (Raise e, s'))
  (Hexc : is_Exception e = true) :
  run w
  = (Ok tt,
     {| page := page s' ++ handler_calls e ++ footer_calls;
        tmp_files := [] |}).
Proof.
  rewrite (run_reaches_block w f img) by assumption.
  pose proof (keeps_classification w (block_start w img)) as Hfiles.
  rewrite Hfail in Hfiles. cbn [snd block_start tmp_files] in Hfiles.
  erewrite bind_ok
    by (unfold try_except; rewrite Hfail, Hexc; apply handler_runs, Hhandler).
  erewrite bind_ok by (apply footer_runs, Hfooter).
  rewrite emit_emit. destruct s' as [pg fs]. cbn in Hfiles. subst fs.
  unfold emit. cbn [page tmp_files]. apply cleanup_created.
Qed.

Lemma run_survives_block_failure_witness :
  run Demo.bar_world
  = (Ok tt,
     {| page := page Cases.bar_state ++ handler_calls Demo.bar_error
                ++ footer_calls;
        tmp_files := [] |}).
Proof.
  apply (run_survives_block_failure Demo.bar_world Demo.jpeg_upload
           Demo.rgb_pixel Demo.bar_error Cases.bar_state).
  - reflexivity.
  - intros c Hc. cbn in Hc. intuition (subst; reflexivity).
  - reflexivity.
  - intros c Hc. cbn in Hc. intuition (subst; reflexivity).
  - reflexivity.
  - intros c Hc. cbn in Hc. intuition (subst; reflexivity).
  - intros c Hc. cbn in Hc. intuition (subst; reflexivity).
  - reflexivity.
  - reflexivity.
  - reflexivity.
  - reflexivity.
  - vm_compute. reflexivity.
  - reflexivity.
Defined.

(** X3: an exception that does not derive from [Exception] passes the
    [except] clause of the classification block: the [KeyboardInterrupt]
    of a user who stops the script during [time.sleep], [SystemExit], and
    the [StopException] and [RerunException] with which Streamlit ends or
    restarts a script. The run ends with it, no error message is shown,
    and the temporary file stays on disk. *)
Theorem run_ends_on_base_exception
  (w : World) (f : list Byte.byte) (img : PIL.Image) (e : exn) (s' : state)
  (Himports : first_failure w imported_modules = None)
  (Htop : calls_work w top_calls)
  (Hcolumns : call_raises w columns = None)
  (Hupload_calls : calls_work w (upload_calls img))
  (Hheader : call_raises w (header "Classification Results") = None)
  (Hupload : uploaded_file w = Some f)
  (Hopen : Image_open w f = Ok img)
  (Hcreated : tmp_raises w = None)
  (Hsave : Image_save w img (temp_name w) = None)
  (Hfail : classification w (block_start w img) = (Raise e, s'))
  (Hbase : is_Exception e = false) :
  run w = (Raise e, s') /\ tmp_files s' = [temp_name w].
Proof.
  rewrite (run_reaches_block w f img) by assumption.
  pose proof (keeps_classification w (block_start w img)) as Hfiles.
  rewrite Hfail in Hfiles. cbn [snd block_start tmp_files] in Hfiles.
  split; [|exact Hfiles].
  erewrite bind_raise; [reflexivity|].
  unfold try_except. now rewrite Hfail, Hbase.
Qed.

Lemma run_ends_on_base_exception_witness :
  run Cases.interrupted = (Raise Cases.interrupt, Cases.interrupted_state) /\
  tmp_files Cases.interrupted_state = [temp_name Cases.interrupted].
Proof.
  apply (run_ends_on_base_exception Cases.interrupted Demo.jpeg_upload
           Demo.rgb_pixel).
  - reflexivity.
  - intros c Hc. cbn in Hc. intuition (subst; reflexivity).
  - reflexivity.
  - intros c Hc. cbn in Hc. intuition (subst; reflexivity).
  - reflexivity.
  - reflexivity.
  - reflexivity.
  - reflexivity.
  - reflexivity.
  - vm_compute. reflexivity.
  - reflexivity.
Defined.

(** X4: without an upload the run renders the page with its two hints
    and returns; it shows no classification and creates no file. *)
Theorem run_without_upload_shows_hints (w : World)
  (Himports : first_failure w imported_modules = None)
  (Hwidgets : widgets_work w)
  (Hupload : uploaded_file w = None) :
  run w
  = (Ok tt,
     {| page := top_calls
                ++ [ columns; header "Upload Image";
                     file_uploader "Choose an image of a recyclable item";
                     info "Please upload an image to classify.";
                     header "Classification Results";
                     info "Upload an image to see classification results." ]
                ++ footer_calls;
        tmp_files := [] |}) /\
  classification_shown w = ([], []).
Proof.
  assert (Hrun : run w
    = (Ok tt,
       {| page := top_calls
                  ++ [ columns; header "Upload Image";
                       file_uploader "Choose an image of a recyclable item";
                       info "Please upload an image to classify.";
                       header "Classification Results";
                       info "Upload an image to see classification results." ]
                  ++ footer_calls;
          tmp_files := [] |})).
  { unfold run, main.
    erewrite bind_ok by (rewrite imports_result, Himports; reflexivity).
    erewrite bind_ok by (apply page_top_ok, Hwidgets).
    erewrite bind_ok by (apply st_ok, Hwidgets).
    erewrite bind_ok by (apply column1_no_upload; assumption).
    unfold column2.
    erewrite bind_ok by (erewrite bind_ok by (apply st_ok, Hwidgets);
                         cbn [truthy]; apply st_ok, Hwidgets).
    erewrite bind_ok by (apply footer_ok, Hwidgets).
    reflexivity. }
  split; [exact Hrun|].
  unfold classification_shown. rewrite Hrun. reflexivity.
Qed.

Lemma run_without_upload_shows_hints_witness :
  run Demo.no_upload
  = (Ok tt,
     {| page := top_calls
                ++ [ columns; header "Upload Image";
                     file_uploader "Choose an image of a recyclable item";
                     info "Please upload an image to classify.";
                     header "Classification Results";
                     info "Upload an image to see classification results." ]
                ++ footer_calls;
        tmp_files := [] |}) /\
  classification_shown Demo.no_upload = ([], []).
Proof.
  apply (run_without_upload_shows_hints Demo.no_upload).
  - reflexivity.
  - intros c. reflexivity.
  - reflexivity.
Defined.
End Calls.

(** ** What a run can show, and which files it can leave *)

Section Shown.
Import App Script.

Lemma shown_emit (cs : list call) (s : state) :
  shown (emit cs s)
  = (fst (shown s) ++ shown_results cs, snd (shown s) ++ shown_top cs).
Proof.
  unfold shown, emit. cbn [page fst snd].
  now rewrite shown_results_app, shown_top_app.
Qed.

Lemma quiet_ret {A} (a : A) : quiet (ret a).
Proof. intros s. reflexivity. Qed.

Lemma quiet_lift {A} (r : result A) : quiet (lift r).
Proof. intros s. reflexivity. Qed.

Lemma quiet_import (w : World) (m : string) : quiet (import_ w m).
Proof. apply quiet_lift. Qed.

(** A call that is neither a line nor the banner. *)
Lemma quiet_st (w : World) (c : call) :
  shown_results [c] = [] -> shown_top [c] = [] -> quiet (st w c).
Proof.
  intros Hr Ht s. unfold st. destruct (call_raises w c); [reflexivity|].
  change (shown (emit [c] s) = shown s).
  rewrite shown_emit, Hr, Ht, !app_nil_r. reflexivity.
Qed.

Lemma quiet_bind {A B} (m : M A) (f : A -> M B) :
  quiet m -> (forall a, quiet (f a)) -> quiet (bind m f).
Proof.
  intros Hm Hf s. unfold bind. specialize (Hm s).
  destruct (m s) as [[a|e] s1]; cbn [snd] in *.
  - now rewrite Hf.
  - assumption.
Qed.

Ltac hush :=
  repeat match goal with
  | |- quiet (bind _ _) => apply quiet_bind; [|intro]
  | |- quiet (st _ _) => apply quiet_st; reflexivity
  | |- quiet (import_ _ _) => apply quiet_import
  | |- quiet (ret _) => apply quiet_ret
  | |- quiet (lift _) => apply quiet_lift
  end.

Lemma quiet_imports (w : World) : quiet (imports w).
Proof. unfold imports. hush. Qed.

Lemma quiet_page_top (w : World) : quiet (page_top w).
Proof. unfold page_top. hush. Qed.

Lemma quiet_footer (w : World) : quiet (footer w).
Proof. unfold footer. hush. Qed.

Lemma quiet_handler (w : World) (e : exn) : quiet (handler w e).
Proof. unfold handler. hush. Qed.

Lemma quiet_column1 (w : World) : quiet (column1 w).
Proof.
  unfold column1. hush. destruct (uploaded_file w); hush.
  - intros s. unfold NamedTemporaryFile. now destruct (tmp_raises w).
  - intros s. unfold save.
    match goal with
    | |- context [Image_save w ?i ?p] => now destruct (Image_save w i p)
    end.
Qed.

Lemma quiet_cleanup (p : option string) : quiet (cleanup p).
Proof.
  intros s. unfold cleanup. destruct p as [p|]; [|reflexivity].
  now destruct (truthy (Some p) && existsb (path_eqb p) (tmp_files s)).
Qed.

Lemma quiet_step {A} (m : M A) (s s1 : state) (r : result A) :
  quiet m -> m s = (r, s1) ->
  shown_results (page s1) = shown_results (page s) /\
  shown_top (page s1) = shown_top (page s).
Proof.
  intros Hm E. specialize (Hm s). rewrite E in Hm. unfold shown in Hm.
  cbn [snd] in Hm. now inversion Hm.
Qed.

Lemma shows_only_quiet {A} (d : Py.dict F64.t) (b : string * F64.t) (m : M A) :
  quiet m -> shows_only d b m.
Proof.
  intros Hm s. exists 0. destruct (m s) as [r s1] eqn:E.
  destruct (quiet_step m s s1 r Hm E) as [Hr Ht]. cbn [snd firstn].
  rewrite Hr, Ht, app_nil_r. auto.
Qed.

Lemma shows_only_after {A B} (d : Py.dict F64.t) (b : string * F64.t)
  (m : M A) (f : A -> M B) :
  quiet m -> (forall a, shows_only d b (f a)) -> shows_only d b (bind m f).
Proof.
  intros Hm Hf s. unfold bind. destruct (m s) as [r s1] eqn:E.
  destruct (quiet_step m s s1 r Hm E) as [Hr Ht].
  destruct r as [a|e]; cbn [snd].
  - destruct (Hf a s1) as (n & H1 & H2). exists n.
    now rewrite <- Hr, <- Ht.
  - exists 0. rewrite Hr, Ht. cbn [firstn]. rewrite app_nil_r. auto.
Qed.

Lemma shows_only_before {A B} (d : Py.dict F64.t) (b : string * F64.t)
  (m : M A) (f : A -> M B) :
  shows_only d b m -> (forall a, quiet (f a)) -> shows_only d b (bind m f).
Proof.
  intros Hm Hf s. unfold bind. destruct (Hm s) as (n & H1 & H2).
  destruct (m s) as [[a|e] s1]; cbn [snd] in *.
  - destruct (f a s1) as [r s2] eqn:E.
    destruct (quiet_step (f a) s1 s2 r (Hf a) E) as [Hr Ht].
    exists n. cbn [snd]. now rewrite Hr, Ht.
  - now exists n.
Qed.

Lemma shows_only_try (d : Py.dict F64.t) (b : string * F64.t)
  (body : M unit) (h : exn -> M unit) :
  shows_only d b body -> (forall e, quiet (h e)) ->
  shows_only d b (try_except body h).
Proof.
  intros Hm Hh s. unfold try_except. destruct (Hm s) as (n & H1 & H2).
  destruct (body s) as [[a|e] s1]; cbn [snd] in *.
  - now exists n.
  - destruct (is_Exception e); cbn [snd].
    + destruct (h e s1) as [r s2] eqn:E.
      destruct (quiet_step (h e) s1 s2 r (Hh e) E) as [Hr Ht].
      exists n. cbn [snd]. now rewrite Hr, Ht.
    + now exists n.
Qed.

Lemma st_returns (w : World) (c : call) (s s1 : state) (u : unit) :
  st w c s = (Ok u, s1) -> s1 = emit [c] s.
Proof.
  unfold st. destruct (call_raises w c); [discriminate|].
  intros H. now inversion H.
Qed.

Lemma st_raises (w : World) (c : call) (s s1 : state) (e : exn) :
  st w c s = (Raise e, s1) -> s1 = s.
Proof.
  unfold st. destruct (call_raises w c); [|discriminate].
  intros H. now inversion H.
Qed.

(** The loop writes the entries in order and stops at the first call that
    raises: the page gains the first [n] entries, all of them if the loop
    returns. *)
Lemma loop_shows_prefix (w : World) (d : Py.dict F64.t) (s s' : state)
  (r : result unit) :
  for_each (Py.items d)
    (fun kv => bind (st w (write (fst kv) (snd kv)))
                 (fun _ => st w (progress (snd kv)))) s = (r, s') ->
  exists n,
    shown_results (page s')
    = shown_results (page s) ++ firstn n (Py.items d) /\
    shown_top (page s') = shown_top (page s) /\
    (r = Ok tt -> firstn n (Py.items d) = Py.items d).
Proof.
  unfold Py.items. revert s. induction d as [|[k v] l IH]; intros s E.
  - cbn in E. inversion E; subst. exists 0. cbn. rewrite app_nil_r. auto.
  - cbn [for_each fst snd] in E. rewrite bind_assoc in E.
    unfold bind at 1 in E.
    destruct (st w (write k v) s) as [[u|e] s1] eqn:E1.
    2:{ apply st_raises in E1. inversion E; subst. exists 0. cbn [firstn].
        rewrite app_nil_r. split; [reflexivity|]. split; [reflexivity|].
        intros H; discriminate H. }
    apply st_returns in E1. subst s1. unfold bind at 1 in E.
    destruct (st w (progress v) (emit [write k v] s)) as [[u'|e] s2] eqn:E2.
    2:{ apply st_raises in E2. inversion E; subst. exists 1.
        cbn [firstn emit page].
        rewrite shown_results_app, shown_top_app. cbn.
        rewrite app_nil_r. split; [reflexivity|]. split; [reflexivity|].
        intros H; discriminate H. }
    apply st_returns in E2. subst s2. rewrite emit_emit in E. cbn [app] in E.
    destruct (IH _ E) as (n & H1 & H2 & H3).
    exists (S n). rewrite H1, H2. cbn [emit page firstn].
    rewrite shown_results_app, shown_top_app. cbn.
    rewrite app_nil_r, <- app_assoc. cbn [app].
    split; [reflexivity|]. split; [reflexivity|].
    intros Hok. now rewrite (H3 Hok).
Qed.

Lemma shows_only_intro {A} (d : Py.dict F64.t) (b : string * F64.t) (m : M A) :
  (forall s r s',
     m s = (r, s') ->
     exists n,
       shown_results (page s')
       = shown_results (page s) ++ firstn n (Py.items d) /\
       (shown_top (page s') = shown_top (page s) \/
        (shown_top (page s') = shown_top (page s) ++ [b] /\
         firstn n (Py.items d) = Py.items d))) ->
  shows_only d b m.
Proof.
  intros H s. destruct (m s) as [r s'] eqn:E. cbn [snd]. exact (H s r s' E).
Qed.

(** [display_results] never shows anything but entries of its
    dictionary, in order, and the banner only after all of them. *)
Lemma display_results_shows_only (w : World) (d : Py.dict F64.t)
  (b : string * F64.t) :
  (forall top confidence,
     top_prediction d = Ok top -> Py.getitem d top = Ok confidence ->
     b = (top, confidence)) ->
  shows_only d b (display_results w d).
Proof.
  intros Hb. unfold display_results.
  apply shows_only_after; [hush|intros _].
  apply shows_only_after; [hush|intros _].
  apply shows_only_intro. intros s r s' E.
  unfold bind at 1 in E.
  destruct (for_each _ _ s) as [r1 s1] eqn:E1.
  destruct (loop_shows_prefix w d s s1 r1 E1) as (n & H1 & H2 & H3).
  destruct r1 as [[]|e]; [|inversion E; subst; exists n; auto].
  specialize (H3 eq_refl).
  unfold bind at 1, lift at 1 in E.
  destruct (top_prediction d) as [top|e] eqn:Etop;
    [|inversion E; subst; exists n; auto].
  unfold bind at 1, lift at 1 in E.
  destruct (Py.getitem d top) as [confidence|e] eqn:Eget;
    [|inversion E; subst; exists n; auto].
  pose proof (Hb top confidence eq_refl Eget) as Hbanner.
  unfold bind at 1 in E.
  destruct (st w (success top confidence) s1) as [[u|e] s2] eqn:E2.
  2:{ apply st_raises in E2. inversion E; subst. exists n; auto. }
  apply st_returns in E2. subst s2.
  exists n. split.
  - destruct (st w (markdown "</div>") (emit [success top confidence] s1))
      as [[u'|e] s3] eqn:E3;
      [apply st_returns in E3 | apply st_raises in E3];
      inversion E; subst; cbn [emit page];
      rewrite ?shown_results_app; cbn; rewrite ?app_nil_r; exact H1.
  - right. split; [|exact H3].
    destruct (st w (markdown "</div>") (emit [success top confidence] s1))
      as [[u'|e] s3] eqn:E3;
      [apply st_returns in E3 | apply st_raises in E3];
      inversion E; subst; cbn [emit page];
      rewrite ?shown_top_app; cbn; rewrite ?app_nil_r; now rewrite H2.
Qed.

Lemma column2_shows_only (w : World) (p : option string) :
  shows_only predictions ("Plastic Bottle", F64.dec 85 100) (column2 w p).
Proof.
  unfold column2. apply shows_only_after; [hush|intros _].
  destruct (truthy p); [|apply shows_only_quiet; hush].
  apply shows_only_try; [|intros e; apply quiet_handler].
  unfold classification.
  apply shows_only_after; [hush|intros _].
  apply shows_only_after; [hush|intros _].
  apply shows_only_after; [hush|intros _].
  apply shows_only_after; [hush|intros _].
  apply display_results_shows_only.
  intros top confidence Htop Hget.
  replace (top_prediction predictions) with (@Ok string "Plastic Bottle")
    in Htop by (vm_compute; reflexivity).
  inversion Htop; subst top.
  replace (Py.getitem predictions "Plastic Bottle")
    with (@Ok F64.t (F64.dec 85 100)) in Hget by (vm_compute; reflexivity).
  now inversion Hget.
Qed.

(** The whole script shows nothing but the mock. *)
Lemma main_shows_only (w : World) :
  shows_only predictions ("Plastic Bottle", F64.dec 85 100) (main w).
Proof.
  unfold main.
  apply shows_only_after; [apply quiet_imports|intros _].
  apply shows_only_after; [apply quiet_page_top|intros _].
  apply shows_only_after; [hush|intros _].
  apply shows_only_after; [apply quiet_column1|intros p].
  apply shows_only_before; [apply column2_shows_only|intros _].
  apply quiet_bind; [apply quiet_footer|intros _; apply quiet_cleanup].
Qed.


(** X5: whatever the upload, the decoder, the imports and the widgets do,
    the lines a run leaves on the page are the first entries of the mock,
    in its order, and nothing else; the banner, if there is one, is
    "Plastic Bottle" at 0.85 and comes only after all four lines. *)
Theorem run_shows_only_the_mock (w : World) :
  exists n,
    fst (classification_shown w) = firstn n (Py.items predictions) /\
    (snd (classification_shown w) = [] \/
     (snd (classification_shown w) = [("Plastic Bottle", F64.dec 85 100)] /\
      fst (classification_shown w) = Py.items predictions)).
Proof.
  destruct (main_shows_only w fresh) as (n & H1 & H2). exists n.
  unfold classification_shown, run. cbn [fst snd].
  cbn [fresh page shown_results shown_top flat_map app] in H1, H2.
  split; [exact H1|]. destruct H2 as [H2|[H2 H3]]; [now left|right].
  split; [exact H2|]. now rewrite H1.
Qed.





End Shown.

Section Origins.
Import App Script.

Lemma own_ret {A} (w : World) (a : A) : raises_nothing_itself w (ret a).
Proof. intros s e s' H. discriminate H. Qed.

Lemma own_bind {A B} (w : World) (m : M A) (f : A -> M B) :
  raises_nothing_itself w m -> (forall a, raises_nothing_itself w (f a)) ->
  raises_nothing_itself w (bind m f).
Proof.
  intros Hm Hf s e s' H. unfold bind in H.
  destruct (m s) as [[a|e1] s1] eqn:E.
  - exact (Hf a s1 e s' H).
  - inversion H; subst. exact (Hm s e s' E).
Qed.

Lemma own_st (w : World) (c : call) : raises_nothing_itself w (st w c).
Proof.
  intros s e s' H. unfold st in H.
  destruct (call_raises w c) as [e1|] eqn:E; [|discriminate].
  inversion H; subst. right. right. right. right. now exists c.
Qed.

Lemma own_import (w : World) (m : string) :
  raises_nothing_itself w (import_ w m).
Proof.
  intros s e s' H. unfold import_, lift, Tests.import_module in H.
  destruct (import_raises w m) as [e1|] eqn:E; [|discriminate].
  inversion H; subst. left. now exists m.
Qed.

Lemma own_for_each {A} (w : World) (l : list A) (body : A -> M unit) :
  (forall a, raises_nothing_itself w (body a)) ->
  raises_nothing_itself w (for_each l body).
Proof.
  intros Hb. induction l as [|a r IH]; cbn [for_each].
  - apply own_ret.
  - apply own_bind; [apply Hb | intros _; exact IH].
Qed.

Lemma own_try_except (w : World) (body : M unit) (h : exn -> M unit) :
  raises_nothing_itself w body -> (forall e, raises_nothing_itself w (h e)) ->
  raises_nothing_itself w (try_except body h).
Proof.
  intros Hb Hh s e s' H. unfold try_except in H.
  destruct (body s) as [[a|e1] s1] eqn:E; [discriminate|].
  destruct (is_Exception e1).
  - exact (Hh e1 s1 e s' H).
  - inversion H; subst. exact (Hb s e s' E).
Qed.

Ltac own :=
  repeat match goal with
  | |- raises_nothing_itself _ (bind _ _) => apply own_bind; [|intro]
  | |- raises_nothing_itself _ (st _ _) => apply own_st
  | |- raises_nothing_itself _ (import_ _ _) => apply own_import
  | |- raises_nothing_itself _ (ret _) => apply own_ret
  | |- raises_nothing_itself _ (for_each _ _) => apply own_for_each; intro
  end.

Lemma own_column1 (w : World) : raises_nothing_itself w (column1 w).
Proof.
  unfold column1. own. destruct (uploaded_file w) as [f|] eqn:Hup; own.
  - intros s e s' H. unfold lift in H. inversion H.
    right. left. now exists f.
  - intros s e s' H. unfold NamedTemporaryFile in H.
    destruct (tmp_raises w) as [e1|] eqn:E; [|discriminate].
    inversion H; subst. right. right. now left.
  - intros s e s' H. unfold save in H.
    match type of H with
    | context [Image_save w ?i ?p] =>
        destruct (Image_save w i p) as [e1|] eqn:E; [|discriminate];
        inversion H; subst; right; right; right; left; now exists i, p
    end.
Qed.

(** For the dictionary of the program [max] and the lookup return: the
    block raises only what its calls raise. *)
Lemma own_classification (w : World) :
  raises_nothing_itself w (classification w).
Proof.
  unfold classification, display_results.
  do 7 (apply own_bind; [own|intros _]).
  intros s e s' H.
  unfold bind at 1, lift at 1 in H.
  replace (top_prediction predictions) with (@Ok string "Plastic Bottle")
    in H by (vm_compute; reflexivity).
  unfold bind at 1, lift at 1 in H.
  replace (Py.getitem predictions "Plastic Bottle")
    with (@Ok F64.t (F64.dec 85 100)) in H by (vm_compute; reflexivity).
  revert H. apply (own_bind w); [apply own_st | intros _; apply own_st].
Qed.

Lemma own_cleanup (w : World) (p : option string) :
  raises_nothing_itself w (cleanup p).
Proof.
  intros s e s' H. unfold cleanup, unlink in H.
  destruct p as [p|]; [|discriminate].
  destruct (truthy (Some p) && existsb (path_eqb p) (tmp_files s));
    discriminate.
Qed.

(** The script raises nothing itself. *)
Lemma own_main (w : World) : raises_nothing_itself w (main w).
Proof.
  unfold main, imports, page_top, column2, footer, handler. own.
  - apply own_column1.
  - destruct (truthy a2); [|apply own_st].
    apply own_try_except; [apply own_classification|].
    intros e. unfold handler. own.
  - apply own_cleanup.
Qed.

(** A label file of three lines next to four scores changes nothing: the
    run returns, no exception is raised, and the four results are
    displayed. *)
Lemma C8_counterexample_three_labels :
  class_names_txt Demo.three_labels_world = Some ["A"; "B"; "C"] /\
  List.length ["A"; "B"; "C"] <> List.length (Py.values predictions) /\
  fst (run Demo.three_labels_world) = Ok tt /\
  shown_results (page (snd (run Demo.three_labels_world)))
  = Py.items predictions.
Proof. vm_compute. repeat split. discriminate. Qed.

(** C8, as the code has it: the app never reads a label file. The labels
    are the keys of the dictionary literal that also holds the scores, so
    that there are as many labels as scores, four. A run is the same
    whatever [class_names.txt] holds: with a label file of any number of
    lines, a run whose imports and widgets work and whose upload is stored
    returns normally and displays all four results. The script raises
    nothing itself: an exception that ends a run is one that an import,
    [Image.open], [NamedTemporaryFile], [image.save] or a call into
    Streamlit or [time] has raised. *)
Theorem C8_labels_are_the_keys (w : World) (labels : list string) :
  run (with_labels w labels) = run w /\
  List.length (Py.keys predictions) = List.length (Py.values predictions) /\
  List.length (Py.keys predictions) = 4 /\
  (forall e, fst (run (with_labels w labels)) = Raise e ->
             raised_outside w e) /\
  (all_installed w -> widgets_work w -> upload_stored w ->
   fst (run (with_labels w labels)) = Ok tt /\
   classification_shown (with_labels w labels)
   = (Py.items predictions, [("Plastic Bottle", F64.dec 85 100)])).
Proof.
  assert (Hsame : run (with_labels w labels) = run w) by reflexivity.
  split; [exact Hsame|]. split; [reflexivity|]. split; [reflexivity|].
  split.
  - rewrite Hsame. intros e He. unfold run in He.
    destruct (main w fresh) as [r s'] eqn:E. cbn [fst] in He. subst r.
    exact (own_main w fresh e s' E).
  - intros Hi Hw (f & img & Hup & Hopen & Htmp & Hsave).
    unfold classification_shown. rewrite Hsame.
    rewrite (run_stored w f img) by assumption.
    split; [reflexivity|]. cbn [snd page].
    rewrite !shown_results_app, !shown_top_app. vm_compute. reflexivity.
Qed.
End Origins.

Section Paths.
Import App Script.

(** The three ways the upload column can end. *)
Lemma column1_outcome (w : World) (s s' : state) (r : result (option string)) :
  column1 w s = (r, s') ->
  match r with
  | Ok (Some p) =>
      p = temp_name w /\ tmp_files s' = temp_name w :: tmp_files s /\
      upload_stored w
  | Ok None => tmp_files s' = tmp_files s /\ uploaded_file w = None
  | Raise e =>
      tmp_files s' = tmp_files s \/
      (tmp_files s' = temp_name w :: tmp_files s /\
       exists f img,
         uploaded_file w = Some f /\ Image_open w f = Ok img /\
         tmp_raises w = None /\
         Image_save w img (temp_name w) = Some e)
  end.
Proof.
  unfold column1. intros E. unfold bind at 1 in E.
  destruct (st w (header "Upload Image") s) as [[u|e] s1] eqn:E1.
  2:{ apply st_raises in E1. inversion E; subst. now left. }
  apply st_returns in E1. subst s1. unfold bind at 1 in E.
  destruct (st w (file_uploader "Choose an image of a recyclable item")
              (emit [header "Upload Image"] s)) as [[u'|e] s2] eqn:E2.
  2:{ apply st_raises in E2. inversion E; subst. now left. }
  apply st_returns in E2. subst s2.
  destruct (uploaded_file w) as [f|] eqn:Hup.
  - unfold bind at 1, lift at 1 in E.
    destruct (Image_open w f) as [img|e] eqn:Hopen.
    2:{ inversion E; subst. now left. }
    unfold bind at 1 in E.
    destruct (st w (image img "Uploaded Image")
                (emit [file_uploader "Choose an image of a recyclable item"]
                   (emit [header "Upload Image"] s)))
      as [[u''|e] s3] eqn:E3.
    2:{ apply st_raises in E3. inversion E; subst. now left. }
    apply st_returns in E3. subst s3.
    unfold bind at 1, NamedTemporaryFile at 1 in E.
    destruct (tmp_raises w) as [e|] eqn:Htmp.
    { inversion E; subst. now left. }
    unfold bind, save, ret in E. cbn [emit page tmp_files] in E.
    destruct (Image_save w img (temp_name w)) as [e|] eqn:Hsave;
      inversion E; subst; cbn [tmp_files].
    + right. split; [reflexivity|]. now exists f, img.
    + repeat split. now exists f, img.
  - unfold bind at 1 in E.
    destruct (st w (info "Please upload an image to classify.")
                (emit [file_uploader "Choose an image of a recyclable item"]
                   (emit [header "Upload Image"] s)))
      as [[u''|e] s3] eqn:E3.
    2:{ apply st_raises in E3. inversion E; subst. now left. }
    apply st_returns in E3. subst s3. unfold ret in E.
    inversion E; subst. now split.
Qed.

Lemma keeps_step {A} (m : M A) (s s1 : state) (r : result A) :
  keeps_files m -> m s = (r, s1) -> tmp_files s1 = tmp_files s.
Proof. intros Hm E. specialize (Hm s). now rewrite E in Hm. Qed.

Lemma column2_without_path_is_quiet (w : World) (p : option string) :
  truthy p = false -> quiet (column2 w p).
Proof.
  intros Hp. unfold column2. rewrite Hp.
  apply quiet_bind; [|intros _]; apply quiet_st; reflexivity.
Qed.

(** X6: a classification is shown only for an upload that was opened and
    written to the temporary file, after all seven imports: when a run
    leaves a result line on the page, the upload was stored and no import
    had raised. *)
Theorem results_need_a_stored_upload (w : World)
  (Hshown : fst (classification_shown w) <> []) :
  upload_stored w /\ first_failure w imported_modules = None.
Proof.
  unfold classification_shown, run, main in Hshown. cbn [fst] in Hshown.
  unfold bind at 1 in Hshown.
  destruct (imports w fresh) as [r1 s1] eqn:E1.
  destruct (quiet_step _ _ _ _ (quiet_imports w) E1) as [Q1 _].
  rewrite imports_result in E1.
  destruct (first_failure w imported_modules) as [[m e]|] eqn:Hm.
  { inversion E1; subst. cbn in Hshown. congruence. }
  inversion E1; subst r1 s1. clear E1 Q1.
  unfold bind at 1 in Hshown.
  destruct (page_top w fresh) as [[u|e] s2] eqn:E2.
  2:{ destruct (quiet_step _ _ _ _ (quiet_page_top w) E2) as [Q _].
      cbn [snd] in Hshown. rewrite Q in Hshown. now contradiction Hshown. }
  destruct (quiet_step _ _ _ _ (quiet_page_top w) E2) as [Q2 _].
  unfold bind at 1 in Hshown.
  destruct (st w columns s2) as [[u'|e] s3] eqn:E3.
  2:{ apply st_raises in E3. subst s3. cbn [snd] in Hshown.
      rewrite Q2 in Hshown. now contradiction Hshown. }
  apply st_returns in E3. subst s3.
  unfold bind at 1 in Hshown.
  destruct (column1 w (emit [columns] s2)) as [r4 s4] eqn:E4.
  destruct (quiet_step _ _ _ _ (quiet_column1 w) E4) as [Q4 _].
  assert (Q : shown_results (page s4) = []).
  { rewrite Q4. cbn [emit page]. rewrite shown_results_app, Q2. reflexivity. }
  pose proof (column1_outcome w _ _ _ E4) as Hcol.
  destruct r4 as [[p|]|e].
  - destruct Hcol as (_ & _ & Hstored). now split.
  - exfalso. apply Hshown.
    assert (Hq : quiet (bind (column2 w None)
                          (fun _ => bind (footer w) (fun _ => cleanup None)))).
    { apply quiet_bind; [now apply column2_without_path_is_quiet|intros _].
      apply quiet_bind; [apply quiet_footer|intros _; apply quiet_cleanup]. }
    destruct (bind (column2 w None) _ s4) as [r5 s5] eqn:E5.
    destruct (quiet_step _ _ _ _ Hq E5) as [Q5 _]. cbn [snd].
    now rewrite Q5.
  - exfalso. apply Hshown. exact Q.
Qed.

Lemma results_need_a_stored_upload_witness :
  upload_stored Demo.jpeg_world /\
  first_failure Demo.jpeg_world imported_modules = None.
Proof.
  apply (results_need_a_stored_upload Demo.jpeg_world).
  vm_compute. discriminate.
Defined.

(** X7: a run leaves at most one temporary file, the one it created, and
    only when it ended with an exception after the upload had been opened;
    whatever the world, no other file is created and none is left by a run
    that returns. *)
Theorem run_leaves_at_most_its_temp_file (w : World) :
  tmp_files (snd (run w)) = [] \/
  (tmp_files (snd (run w)) = [temp_name w] /\
   (exists e, fst (run w) = Raise e) /\
   exists f img, uploaded_file w = Some f /\ Image_open w f = Ok img).
Proof.
  destruct (run w) as [r sf] eqn:E. cbn [fst snd].
  destruct r as [[]|e0].
  { left. pose proof (normal_return_leaves_no_temp_file w) as H.
    rewrite E in H. now apply H. }
  unfold run, main in E. unfold bind at 1 in E.
  destruct (imports w fresh) as [[u1|e] s1] eqn:E1;
    pose proof (keeps_step _ _ _ _ (keeps_imports w) E1) as K1;
    cbn [fresh tmp_files] in K1; [|inversion E; subst; now left].
  unfold bind at 1 in E.
  destruct (page_top w s1) as [[u2|e] s2] eqn:E2;
    pose proof (keeps_step _ _ _ _ (keeps_page_top w) E2) as K2;
    [|inversion E; subst; left; congruence].
  unfold bind at 1 in E.
  destruct (st w columns s2) as [[u3|e] s3] eqn:E3;
    pose proof (keeps_step _ _ _ _ (keeps_st w columns) E3) as K3;
    [|inversion E; subst; left; congruence].
  unfold bind at 1 in E.
  destruct (column1 w s3) as [r4 s4] eqn:E4.
  pose proof (column1_outcome w _ _ _ E4) as Hcol.
  assert (Hnil : tmp_files s3 = []) by congruence.
  destruct r4 as [[p|]|e].
  - destruct Hcol as (-> & Hfiles & (f & img & Hup & Hopen & _)).
    rewrite Hnil in Hfiles.
    unfold bind at 1 in E.
    destruct (column2 w (Some (temp_name w)) s4) as [[u5|e] s5] eqn:E5;
      pose proof (keeps_step _ _ _ _ (keeps_column2 w _) E5) as K5.
    2:{ inversion E; subst. right. split; [congruence|].
        split; [now exists e0|now exists f, img]. }
    unfold bind at 1 in E.
    destruct (footer w s5) as [[u6|e] s6] eqn:E6;
      pose proof (keeps_step _ _ _ _ (keeps_footer w) E6) as K6.
    2:{ inversion E; subst. right. split; [congruence|].
        split; [now exists e0|now exists f, img]. }
    rewrite cleanup_removes in E by congruence. discriminate E.
  - destruct Hcol as (Hfiles & _).
    unfold bind at 1 in E.
    destruct (column2 w None s4) as [[u5|e] s5] eqn:E5;
      pose proof (keeps_step _ _ _ _ (keeps_column2 w _) E5) as K5;
      [|inversion E; subst; left; congruence].
    unfold bind at 1 in E.
    destruct (footer w s5) as [[u6|e] s6] eqn:E6;
      pose proof (keeps_step _ _ _ _ (keeps_footer w) E6) as K6;
      [|inversion E; subst; left; congruence].
    cbn in E. discriminate E.
  - inversion E; subst.
    destruct Hcol as [Hfiles|(Hfiles & f & img & Hup & Hopen & _)].
    + left. congruence.
    + right. split; [congruence|]. split; [now exists e0|now exists f, img].
Qed.
End Paths.

(** * Further properties of the tests *)

Section Scaling.
Import Scale.

Lemma all_bytes_complete (b : Byte.byte) : In b all_bytes.
Proof.
  assert (H : existsb (Byte.eqb b) all_bytes = true)
    by (destruct b; vm_compute; reflexivity).
  apply existsb_exists in H. destruct H as (x & Hx & Heq).
  apply Byte.byte_dec_bl in Heq. now subst.
Qed.

Lemma table_complete (b : Byte.byte) :
  In (Byte.to_N b, normalized b) table.
Proof.
  unfold table.
  apply (in_map (fun b => (Byte.to_N b, normalized b))), all_bytes_complete.
Qed.

(** All pairs of the table, checked by computation. *)
Lemma table_increasing :
  forallb (fun p1 =>
    forallb (fun p2 =>
      implb (N.ltb (fst p1) (fst p2)) (SFltb (snd p1) (snd p2))) table) table
  = true.
Proof. vm_compute. reflexivity. Qed.

(** X8: dividing a sample by 255 in float32 loses nothing: a greater byte
    gives a strictly greater element, so that distinct bytes give distinct
    elements; 0 gives exactly 0.0 and 255 exactly 1.0. *)
Theorem normalized_is_strictly_increasing (b1 b2 : Byte.byte)
  (Hlt : (Byte.to_N b1 < Byte.to_N b2)%N) :
  SFltb (normalized b1) (normalized b2) = true /\
  normalized b1 <> normalized b2 /\
  normalized Byte.x00 = F32.of_Z 0 /\
  normalized Byte.xff = F32.of_Z 1.
Proof.
  assert (H : SFltb (normalized b1) (normalized b2) = true).
  { pose proof (proj1 (forallb_forall _ _) table_increasing
                  _ (table_complete b1)) as H1.
    pose proof (proj1 (forallb_forall _ _) H1 _ (table_complete b2)) as H2.
    cbn [fst snd] in H2. apply N.ltb_lt in Hlt. rewrite Hlt in H2. exact H2. }
  split; [exact H|]. split; [|split; vm_compute; reflexivity].
  intros Heq. rewrite Heq in H. unfold SFltb in H.
  destruct (normalized b2) as [s|s| |s m e]; cbn in H; try discriminate.
  - destruct s; discriminate.
  - destruct s; rewrite Z.compare_refl, Pos.compare_cont_refl in H;
      discriminate.
Qed.

Lemma normalized_is_strictly_increasing_witness :
  SFltb (normalized Byte.x7f) (normalized Byte.x80) = true /\
  normalized Byte.x7f <> normalized Byte.x80 /\
  normalized Byte.x00 = F32.of_Z 0 /\
  normalized Byte.xff = F32.of_Z 1.
Proof.
  apply (normalized_is_strictly_increasing Byte.x7f Byte.x80).
  vm_compute. reflexivity.
Defined.
End Scaling.

Section TestImports.
Import App Script.

Ltac settle :=
  solve [ cbn; repeat split; intros;
          repeat match goal with H : _ /\ _ |- _ => destruct H end;
          try discriminate; try congruence;
          try (match goal with
               | H : Raise _ = Raise _ |- _ => inversion H; subst
               end;
               eexists; split; [|eassumption]; tauto) ].

Ltac import m :=
  match goal with
  | w : World |- _ =>
      let e := fresh "e" in
      let E := fresh "E" in
      let I := fresh "I" in
      destruct (import_raises w m) as [e|] eqn:E;
      [destruct (is_ImportError e) eqn:I|]
  end.

(** X9: [test_imports] returns [True] exactly when streamlit, tensorflow,
    numpy, PIL, tempfile and os are imported without an exception and the
    import of cv2 succeeds or raises an [ImportError]. An exception of an
    import that is no [ImportError] passes its [except] clause and leaves
    the test. The app needs OpenCV on top of that: its seven imports
    succeed exactly when [test_imports] returns [True] and cv2 is
    imported. *)
Theorem test_imports_ignores_cv2 (w : World) :
  (Tests.test_imports (import_raises w) = Ok true <->
   import_raises w "streamlit" = None /\
   import_raises w "tensorflow" = None /\
   import_raises w "numpy" = None /\
   import_raises w "PIL" = None /\
   import_raises w "tempfile" = None /\
   import_raises w "os" = None /\
   match import_raises w "cv2" with
   | Some e => is_ImportError e = true
   | None => True
   end) /\
  (forall e,
     Tests.test_imports (import_raises w) = Raise e ->
     is_ImportError e = false /\
     exists m, In m imported_modules /\ import_raises w m = Some e) /\
  (first_failure w imported_modules = None <->
   Tests.test_imports (import_raises w) = Ok true /\
   import_raises w "cv2" = None).
Proof.
  unfold Tests.test_imports, Tests.try_import, Tests.import_module,
    imported_modules.
  cbn [first_failure].
  import "streamlit"; [settle | settle |].
  import "tensorflow"; [settle | settle |].
  import "numpy"; [settle | settle |].
  import "cv2"; [| settle |].
  all: import "PIL"; [settle | settle |].
  all: import "tempfile"; [settle | settle |].
  all: import "os"; settle.
Qed.
End TestImports.

Section Reductions.
Import Order Smoke.
Local Open Scope Z_scope.

Lemma ltb_rank3 (x y : F32.t) :
  is_nan x = false -> is_nan y = false ->
  SFltb x y = true <-> lex_gt (rank3 y) (rank3 x).
Proof.
  intros Hx Hy. unfold SFltb, lex_gt.
  destruct x as [sx|sx| |sx mx ex], y as [sy|sy| |sy my ey];
    try discriminate; cbn [SFcompare rank3 fst snd];
    try (destruct sx); try (destruct sy); cbn [fst snd];
    try change (Pos.compare_cont Eq mx my) with (Pos.compare mx my);
    try (destruct (Z.compare_spec ex ey));
    try (destruct (Pos.compare_spec mx my));
    cbn [CompOpp]; split; intros Hlt;
    try discriminate; try reflexivity; try lia.
Qed.

Lemma leb_rank3 (x y : F32.t) :
  is_nan x = false -> is_nan y = false ->
  SFleb x y = true <-> ~ lex_gt (rank3 x) (rank3 y).
Proof.
  intros Hx Hy. unfold SFleb, lex_gt.
  destruct x as [sx|sx| |sx mx ex], y as [sy|sy| |sy my ey];
    try discriminate; cbn [SFcompare rank3 fst snd];
    try (destruct sx); try (destruct sy); cbn [fst snd];
    try change (Pos.compare_cont Eq mx my) with (Pos.compare mx my);
    try (destruct (Z.compare_spec ex ey));
    try (destruct (Pos.compare_spec mx my));
    cbn [CompOpp]; split; intros Hle;
    try discriminate; try reflexivity; try lia; exfalso; lia.
Qed.

Lemma leb_refl (x : F32.t) : is_nan x = false -> SFleb x x = true.
Proof. intros Hx. apply leb_rank3; auto. unfold lex_gt. lia. Qed.

Lemma leb_trans (x y z : F32.t) :
  is_nan x = false -> is_nan y = false -> is_nan z = false ->
  SFleb x y = true -> SFleb y z = true -> SFleb x z = true.
Proof.
  intros Hx Hy Hz. rewrite !leb_rank3 by assumption. unfold lex_gt. lia.
Qed.

Lemma unit_interval_number (v : F32.t) :
  Np.in_unit_interval v = true -> is_nan v = false.
Proof.
  destruct v; intros H; try reflexivity. vm_compute in H. discriminate.
Qed.

Lemma fmin_below (acc x : F32.t) :
  is_nan acc = false -> is_nan x = false ->
  (fmin acc x = acc \/ fmin acc x = x) /\
  SFleb (fmin acc x) acc = true /\ SFleb (fmin acc x) x = true.
Proof.
  intros Ha Hx. unfold fmin. rewrite Ha, Hx.
  destruct (SFltb x acc) eqn:E.
  - split; [now right|]. split; [|now apply leb_refl].
    apply ltb_rank3 in E; try assumption.
    apply leb_rank3; try assumption. unfold lex_gt in *. lia.
  - split; [now left|]. split; [now apply leb_refl|].
    apply leb_rank3; try assumption. intros H.
    apply ltb_rank3 in H; try assumption. congruence.
Qed.

Lemma fmax_above (acc x : F32.t) :
  is_nan acc = false -> is_nan x = false ->
  (fmax acc x = acc \/ fmax acc x = x) /\
  SFleb acc (fmax acc x) = true /\ SFleb x (fmax acc x) = true.
Proof.
  intros Ha Hx. unfold fmax. rewrite Ha, Hx.
  destruct (SFltb acc x) eqn:E.
  - split; [now right|]. split; [|now apply leb_refl].
    apply ltb_rank3 in E; try assumption.
    apply leb_rank3; try assumption. unfold lex_gt in *. lia.
  - split; [now left|]. split; [now apply leb_refl|].
    apply leb_rank3; try assumption. intros H.
    apply ltb_rank3 in H; try assumption. congruence.
Qed.

(** The minimum of numbers is one of them and is below all of them. *)
Lemma fold_fmin (r : list F32.t) (x : F32.t) :
  (forall e, In e (x :: r) -> is_nan e = false) ->
  In (fold_left fmin r x) (x :: r) /\
  forall e, In e (x :: r) -> SFleb (fold_left fmin r x) e = true.
Proof.
  revert x. induction r as [|y r IH]; intros x Hnum.
  - cbn. split; [now left|]. intros e [<-|[]]. apply leb_refl, Hnum. now left.
  - cbn [fold_left].
    assert (Hx : is_nan x = false) by (apply Hnum; now left).
    assert (Hy : is_nan y = false) by (apply Hnum; right; now left).
    destruct (fmin_below x y Hx Hy) as (Hor & Hlx & Hly).
    assert (Hm : is_nan (fmin x y) = false) by (destruct Hor as [->| ->]; auto).
    destruct (IH (fmin x y)) as (Hin & Hle).
    { intros e [<-|He]; [exact Hm|]. apply Hnum. right. now right. }
    assert (Hf : is_nan (fold_left fmin r (fmin x y)) = false).
    { destruct Hin as [<-|Hin]; [exact Hm|]. apply Hnum. right. now right. }
    split.
    + destruct Hin as [Hin|Hin].
      * rewrite <- Hin. destruct Hor as [->| ->]; [now left|right; now left].
      * right. now right.
    + intros e [<-|[<-|He]].
      * apply (leb_trans _ (fmin x y)); auto. apply Hle. now left.
      * apply (leb_trans _ (fmin x y)); auto. apply Hle. now left.
      * apply Hle. now right.
Qed.

Lemma fold_fmax (r : list F32.t) (x : F32.t) :
  (forall e, In e (x :: r) -> is_nan e = false) ->
  In (fold_left fmax r x) (x :: r) /\
  forall e, In e (x :: r) -> SFleb e (fold_left fmax r x) = true.
Proof.
  revert x. induction r as [|y r IH]; intros x Hnum.
  - cbn. split; [now left|]. intros e [<-|[]]. apply leb_refl, Hnum. now left.
  - cbn [fold_left].
    assert (Hx : is_nan x = false) by (apply Hnum; now left).
    assert (Hy : is_nan y = false) by (apply Hnum; right; now left).
    destruct (fmax_above x y Hx Hy) as (Hor & Hlx & Hly).
    assert (Hm : is_nan (fmax x y) = false) by (destruct Hor as [->| ->]; auto).
    destruct (IH (fmax x y)) as (Hin & Hle).
    { intros e [<-|He]; [exact Hm|]. apply Hnum. right. now right. }
    assert (Hf : is_nan (fold_left fmax r (fmax x y)) = false).
    { destruct Hin as [<-|Hin]; [exact Hm|]. apply Hnum. right. now right. }
    split.
    + destruct Hin as [Hin|Hin].
      * rewrite <- Hin. destruct Hor as [->| ->]; [now left|right; now left].
      * right. now right.
    + intros e [<-|[<-|He]].
      * apply (leb_trans _ (fmax x y)); auto. apply Hle. now left.
      * apply (leb_trans _ (fmax x y)); auto. apply Hle. now left.
      * apply Hle. now right.
Qed.

(** The range of an array whose elements lie in [0, 1]. *)
Lemma range_in_unit_interval (a : Np.ndarray) :
  Np.data a <> [] ->
  Forall (fun v => Np.in_unit_interval v = true) (Np.data a) ->
  exists lo hi,
    amin a = Ok lo /\ amax a = Ok hi /\
    Np.in_unit_interval lo = true /\ Np.in_unit_interval hi = true /\
    SFleb lo hi = true.
Proof.
  intros Hne Hall. unfold amin, amax.
  destruct (Np.data a) as [|x r]; [congruence|].
  rewrite Forall_forall in Hall.
  assert (Hnum : forall e, In e (x :: r) -> is_nan e = false)
    by (intros e He; apply unit_interval_number, Hall, He).
  destruct (fold_fmin r x Hnum) as (Hin1 & Hle1).
  destruct (fold_fmax r x Hnum) as (Hin2 & Hle2).
  exists (fold_left fmin r x), (fold_left fmax r x).
  repeat split; auto.
Qed.
End Reductions.

Section SmokeSteps.
Import PIL Smoke.

(** The preprocessing of the tests always returns: a tensor of shape
    (1, 224, 224, 3) that is not empty and whose elements lie in [0, 1]. *)
Lemma preprocess_returns (lib : Library) (img : Image) :
  exists tensor,
    Tests.preprocess lib img = Ok tensor /\
    Np.shape tensor = [1; 224; 224; 3] /\
    Np.data tensor <> [] /\
    Forall (fun v => Np.in_unit_interval v = true) (Np.data tensor).
Proof.
  destruct (preprocess_to_returns lib img 224 224)
    as (resized & Hr & Hm & Hs & Ht); [lia..|].
  eexists. split; [exact Ht|]. split; [|split].
  - now apply (tensor_shape resized 224 224).
  - intros H. apply (f_equal (@List.length F32.t)) in H.
    rewrite (tensor_length resized 224 224) in H by assumption.
    cbn [List.length] in H. lia.
  - now apply tensor_unit_interval.
Qed.

Lemma sbind_ok {A B} (m : M A) (f : A -> M B) (s s' : state) (a : A) :
  m s = (Ok a, s') -> bind m f s = f a s'.
Proof. intros H. unfold bind. now rewrite H. Qed.

Lemma sbind_raise {A B} (m : M A) (f : A -> M B) (s s' : state) (e : exn) :
  m s = (Raise e, s') -> bind m f s = (Raise e, s').
Proof. intros H. unfold bind. now rewrite H. Qed.

Lemma print_ok (l : line) (s : state) : print l s = (Ok tt, printed [l] s).
Proof. reflexivity. Qed.

Lemma simport_ok (w : World) (m : string) (s : state) :
  import_raises w m = None -> import_ w m s = (Ok tt, s).
Proof.
  intros H. unfold import_, lift, Tests.import_module. now rewrite H.
Qed.

Lemma simport_fails (w : World) (m : string) (e : exn) (s : state) :
  import_raises w m = Some e -> import_ w m s = (Raise e, s).
Proof.
  intros H. unfold import_, lift, Tests.import_module. now rewrite H.
Qed.

Lemma temp_ok (w : World) (s : state) :
  tmp_raises w = None ->
  NamedTemporaryFile w s = (Ok (temp_name w), created (temp_name w) s).
Proof. intros H. unfold NamedTemporaryFile. now rewrite H. Qed.

Lemma temp_fails (w : World) (e : exn) (s : state) :
  tmp_raises w = Some e -> NamedTemporaryFile w s = (Raise e, s).
Proof. intros H. unfold NamedTemporaryFile. now rewrite H. Qed.

Lemma save_ok (w : World) (img : Image) (p : string) (s : state) :
  Image_save w img p = None -> save w img p s = (Ok tt, s).
Proof. intros H. unfold save. now rewrite H. Qed.

Lemma save_raises (w : World) (img : Image) (p : string) (s : state) (e : exn) :
  Image_save w img p = Some e -> save w img p s = (Raise e, s).
Proof. intros H. unfold save. now rewrite H. Qed.

Lemma open_ok (w : World) (p : string) (img : Image) (s : state) :
  Image_open w p = Ok img -> open w p s = (Ok img, s).
Proof. intros H. unfold open, lift. now rewrite H. Qed.

Lemma open_raises (w : World) (p : string) (e : exn) (s : state) :
  Image_open w p = Raise e -> open w p s = (Raise e, s).
Proof. intros H. unfold open, lift. now rewrite H. Qed.

Lemma lift_ok {A} (a : A) (s : state) : lift (Ok a) s = (Ok a, s).
Proof. reflexivity. Qed.

Lemma unlink_ok (p : string) (s : state) :
  unlink p s
  = (Ok tt, {| stdout := stdout s;
               tmp_files := filter (fun q => negb (path_eqb q p))
                              (tmp_files s) |}).
Proof. reflexivity. Qed.

Lemma filter_created (name : string) (l : list string) :
  filter (fun q => negb (path_eqb q name)) (name :: l)
  = filter (fun q => negb (path_eqb q name)) l.
Proof. cbn [filter]. unfold path_eqb at 1. now rewrite String.eqb_refl. Qed.
End SmokeSteps.

Section SmokeTests.
Import PIL Smoke.

(** X10: when PIL, numpy, tempfile and os are imported, the temporary file
    is created, the red test image is saved and the file is opened,
    [test_image_processing] returns [True] whatever image the decoder
    gives back, of any mode and any size: it prints the shape
    (1, 224, 224, 3) and a value range whose two ends lie in [0, 1], the
    lower one not above the upper one, and it removes its temporary
    file. *)
Theorem test_image_processing_passes (w : World) (img : Image) (s : state) :
  (forall m, In m ["PIL"; "numpy"; "tempfile"; "os"] ->
             import_raises w m = None) ->
  tmp_raises w = None ->
  Image_save w (Image_new_RGB (224, 224) red) (temp_name w) = None ->
  Image_open w (temp_name w) = Ok img ->
  exists lo hi,
    test_image_processing w s
    = (Ok true,
       {| stdout := stdout s
                    ++ [ say "Testing image processing...";
                         say "PIL-based image processing successful";
                         say_shape [1; 224; 224; 3];
                         say_range lo hi ];
          tmp_files := filter (fun p => negb (path_eqb p (temp_name w)))
                         (tmp_files s) |}) /\
    Np.in_unit_interval lo = true /\ Np.in_unit_interval hi = true /\
    SFleb lo hi = true.
Proof.
  intros Hi Htmp Hsave Hopen.
  destruct (preprocess_returns (lib w) img) as (t & Ht & Hshape & Hne & Hunit).
  destruct (range_in_unit_interval t Hne Hunit)
    as (lo & hi & Hlo & Hhi & Ulo & Uhi & Hle).
  exists lo, hi. split; [|auto].
  unfold test_image_processing.
  erewrite sbind_ok by apply print_ok.
  unfold try_except.
  erewrite sbind_ok by (apply simport_ok, Hi; cbn; auto).
  erewrite sbind_ok by (apply simport_ok, Hi; cbn; auto).
  erewrite sbind_ok by (apply simport_ok, Hi; cbn; auto).
  erewrite sbind_ok by (apply simport_ok, Hi; cbn; auto).
  cbv zeta.
  erewrite sbind_ok by (apply temp_ok, Htmp).
  erewrite sbind_ok by (apply save_ok, Hsave).
  erewrite sbind_ok by (apply open_ok, Hopen).
  rewrite Ht. erewrite sbind_ok by apply lift_ok.
  erewrite sbind_ok by apply print_ok.
  erewrite sbind_ok by apply print_ok.
  rewrite Hlo, Hhi, Hshape.
  erewrite sbind_ok by apply lift_ok.
  erewrite sbind_ok by apply lift_ok.
  erewrite sbind_ok by apply print_ok.
  erewrite sbind_ok by apply unlink_ok.
  unfold ret, printed, created. cbn [stdout tmp_files].
  rewrite filter_created, <- !app_assoc. reflexivity.
Qed.

Lemma test_image_processing_passes_witness :
  fst (test_image_processing Cases.good fresh) = Ok true.
Proof.
  destruct (test_image_processing_passes Cases.good Cases.decoded_red fresh)
    as (lo & hi & E & _).
  - intros m Hm. reflexivity.
  - reflexivity.
  - reflexivity.
  - reflexivity.
  - rewrite E. reflexivity.
Defined.

(** X11: when its imports succeed, a [test_image_processing] that returns
    [False] has either failed to create its temporary file, and then the
    files on disk are as before, or it leaves the temporary file on disk:
    the file is created before [save] and [Image.open] are tried, and
    [os.unlink] is only reached on the way to [return True]. *)
Theorem test_image_processing_failure_leaves_file (w : World) (s : state) :
  (forall m, In m ["PIL"; "numpy"; "tempfile"; "os"] ->
             import_raises w m = None) ->
  fst (test_image_processing w s) = Ok false ->
  match tmp_raises w with
  | Some e =>
      is_Exception e = true /\
      tmp_files (snd (test_image_processing w s)) = tmp_files s
  | None =>
      tmp_files (snd (test_image_processing w s))
      = temp_name w :: tmp_files s
  end.
Proof.
  intros Hi. unfold test_image_processing.
  erewrite sbind_ok by apply print_ok.
  unfold try_except.
  erewrite sbind_ok by (apply simport_ok, Hi; cbn; auto).
  erewrite sbind_ok by (apply simport_ok, Hi; cbn; auto).
  erewrite sbind_ok by (apply simport_ok, Hi; cbn; auto).
  erewrite sbind_ok by (apply simport_ok, Hi; cbn; auto).
  cbv zeta.
  destruct (tmp_raises w) as [e|] eqn:Htmp.
  { erewrite sbind_raise by (apply temp_fails, Htmp).
    destruct (is_Exception e); cbn; [now split | discriminate]. }
  erewrite sbind_ok by (apply temp_ok, Htmp).
  destruct (Image_save w (Image_new_RGB (224, 224) red) (temp_name w))
    as [e|] eqn:Hsave.
  - erewrite sbind_raise by (apply save_raises, Hsave).
    destruct (is_Exception e); cbn; [reflexivity | discriminate].
  - erewrite sbind_ok by (apply save_ok, Hsave).
    destruct (Image_open w (temp_name w)) as [img|e] eqn:Hopen.
    + erewrite sbind_ok by (apply open_ok, Hopen).
      destruct (preprocess_returns (lib w) img)
        as (t & Ht & Hshape & Hne & Hunit).
      destruct (range_in_unit_interval t Hne Hunit)
        as (lo & hi & Hlo & Hhi & _).
      rewrite Ht. erewrite sbind_ok by apply lift_ok.
      erewrite sbind_ok by apply print_ok.
      erewrite sbind_ok by apply print_ok.
      rewrite Hlo, Hhi.
      erewrite sbind_ok by apply lift_ok.
      erewrite sbind_ok by apply lift_ok.
      erewrite sbind_ok by apply print_ok.
      erewrite sbind_ok by apply unlink_ok.
      unfold ret. cbn [fst]. discriminate.
    + erewrite sbind_raise by (apply open_raises, Hopen).
      destruct (is_Exception e); cbn; [reflexivity | discriminate].
Qed.

Lemma test_image_processing_failure_leaves_file_witness :
  tmp_files (snd (test_image_processing Cases.disk_full fresh))
  = [temp_name Cases.disk_full].
Proof.
  apply (test_image_processing_failure_leaves_file Cases.disk_full fresh).
  - intros m Hm. reflexivity.
  - reflexivity.
Defined.

(** X12: [test_pil_functionality] announces the loading before it loads:
    when the temporary file is created, the blue test image is saved and
    [Image.open] then raises an [Exception], the output holds the line
    "Saved and loaded test image" followed by the failure line with the
    message of the exception; the test returns [False] and its temporary
    file stays on disk. *)
Theorem test_pil_functionality_reports_loading_first (w : World) (e : exn)
  (s : state) :
  (forall m, In m ["PIL"; "numpy"; "tempfile"] -> import_raises w m = None) ->
  tmp_raises w = None ->
  Image_save w (Image_new_RGB (224, 224) blue) (temp_name w) = None ->
  Image_open w (temp_name w) = Raise e ->
  is_Exception e = true ->
  test_pil_functionality w s
  = (Ok false,
     {| stdout := stdout s
                  ++ [ say "Testing PIL-based image processing...";
                       say "Created test image";
                       say "Saved and loaded test image";
                       say (String.append "PIL functionality test failed: "
                              (exn_msg e)) ];
        tmp_files := temp_name w :: tmp_files s |}).
Proof.
  intros Hi Htmp Hsave Hopen He. unfold test_pil_functionality.
  erewrite sbind_ok by apply print_ok.
  unfold try_except.
  erewrite sbind_ok by (apply simport_ok, Hi; cbn; auto).
  erewrite sbind_ok by (apply simport_ok, Hi; cbn; auto).
  erewrite sbind_ok by (apply simport_ok, Hi; cbn; auto).
  cbv zeta.
  erewrite sbind_ok by apply print_ok.
  erewrite sbind_ok by (apply temp_ok, Htmp).
  erewrite sbind_ok by (apply save_ok, Hsave).
  erewrite sbind_ok by apply print_ok.
  erewrite sbind_raise by (apply open_raises, Hopen).
  rewrite He.
  erewrite sbind_ok by apply print_ok.
  unfold ret, printed, created. cbn [stdout tmp_files].
  rewrite <- !app_assoc. reflexivity.
Qed.

Lemma test_pil_functionality_reports_loading_first_witness :
  test_pil_functionality Cases.unreadable fresh
  = (Ok false,
     {| stdout := [ say "Testing PIL-based image processing...";
                    say "Created test image";
                    say "Saved and loaded test image";
                    say "PIL functionality test failed: cannot identify image file" ];
        tmp_files := [temp_name Cases.unreadable] |}).
Proof.
  apply (test_pil_functionality_reports_loading_first
           Cases.unreadable Cases.unreadable_error fresh).
  - intros m Hm. reflexivity.
  - reflexivity.
  - reflexivity.
  - reflexivity.
  - reflexivity.
Defined.

(** X13: when PIL, numpy and tempfile are imported, the temporary file is
    created, the blue test image is saved and the file is opened,
    [test_pil_functionality] returns [True] whatever image the decoder
    gives back: its lines end with the shape (1, 224, 224, 3), a value
    range inside [0, 1] and the dtype float32, and its temporary file is
    removed. *)
Theorem test_pil_functionality_passes (w : World) (img : Image) (s : state) :
  (forall m, In m ["PIL"; "numpy"; "tempfile"] -> import_raises w m = None) ->
  tmp_raises w = None ->
  Image_save w (Image_new_RGB (224, 224) blue) (temp_name w) = None ->
  Image_open w (temp_name w) = Ok img ->
  exists lo hi,
    test_pil_functionality w s
    = (Ok true,
       {| stdout := stdout s
                    ++ [ say "Testing PIL-based image processing...";
                         say "Created test image";
                         say "Saved and loaded test image";
                         say "PIL-based image preprocessing successful";
                         say_shape [1; 224; 224; 3];
                         say_range lo hi;
                         say_dtype "float32" ];
          tmp_files := filter (fun p => negb (path_eqb p (temp_name w)))
                         (tmp_files s) |}) /\
    Np.in_unit_interval lo = true /\ Np.in_unit_interval hi = true /\
    SFleb lo hi = true.
Proof.
  intros Hi Htmp Hsave Hopen.
  destruct (preprocess_returns (lib w) img) as (t & Ht & Hshape & Hne & Hunit).
  destruct (range_in_unit_interval t Hne Hunit)
    as (lo & hi & Hlo & Hhi & Ulo & Uhi & Hle).
  exists lo, hi. split; [|auto].
  unfold test_pil_functionality.
  erewrite sbind_ok by apply print_ok.
  unfold try_except.
  erewrite sbind_ok by (apply simport_ok, Hi; cbn; auto).
  erewrite sbind_ok by (apply simport_ok, Hi; cbn; auto).
  erewrite sbind_ok by (apply simport_ok, Hi; cbn; auto).
  cbv zeta.
  erewrite sbind_ok by apply print_ok.
  erewrite sbind_ok by (apply temp_ok, Htmp).
  erewrite sbind_ok by (apply save_ok, Hsave).
  erewrite sbind_ok by apply print_ok.
  erewrite sbind_ok by (apply open_ok, Hopen).
  rewrite Ht. erewrite sbind_ok by apply lift_ok.
  erewrite sbind_ok by apply print_ok.
  erewrite sbind_ok by apply print_ok.
  rewrite Hlo, Hhi, Hshape.
  erewrite sbind_ok by apply lift_ok.
  erewrite sbind_ok by apply lift_ok.
  erewrite sbind_ok by apply print_ok.
  erewrite sbind_ok by apply print_ok.
  erewrite sbind_ok by apply unlink_ok.
  unfold ret, printed, created. cbn [stdout tmp_files].
  rewrite filter_created, <- !app_assoc. reflexivity.
Qed.

Lemma test_pil_functionality_passes_witness :
  fst (test_pil_functionality Cases.good fresh) = Ok true.
Proof.
  destruct (test_pil_functionality_passes Cases.good Cases.decoded_red fresh)
    as (lo & hi & E & _).
  - intros m Hm. reflexivity.
  - reflexivity.
  - reflexivity.
  - reflexivity.
  - rewrite E. reflexivity.
Defined.

Ltac failed :=
  destruct (is_Exception _); cbn;
  (split; [split; [discriminate
                  | intros H; decompose [and ex] H; congruence]
          | discriminate]).

Ltac import_step m :=
  match goal with
  | w : World |- _ =>
      let e := fresh "e" in
      let E := fresh "E" in
      destruct (import_raises w m) as [e|] eqn:E;
      [ erewrite sbind_raise by (apply simport_fails, E); failed
      | erewrite sbind_ok by (apply simport_ok, E) ]
  end.

(** X14: [test_app_imports] returns [True] exactly when streamlit, numpy,
    PIL, tempfile and os are imported, the import of cv2 succeeds or
    raises an [ImportError], the temporary file is created, the green test
    image is saved and the file is opened again. Its output is then the
    start line, the line on the basic dependencies, one line on OpenCV and
    the line on the fallback, and its temporary file is removed: whether
    OpenCV is imported changes that one line and nothing else. *)
Theorem test_app_imports_ignores_cv2 (w : World) (s : state) :
  (fst (test_app_imports w s) = Ok true <->
   import_raises w "streamlit" = None /\
   import_raises w "numpy" = None /\
   import_raises w "PIL" = None /\
   import_raises w "tempfile" = None /\
   import_raises w "os" = None /\
   match import_raises w "cv2" with
   | Some e => is_ImportError e = true
   | None => True
   end /\
   tmp_raises w = None /\
   Image_save w (Image_new_RGB (224, 224) green) (temp_name w) = None /\
   exists img, Image_open w (temp_name w) = Ok img) /\
  (fst (test_app_imports w s) = Ok true ->
   test_app_imports w s
   = (Ok true,
      {| stdout := stdout s
                   ++ [ say "Testing application import...";
                        say "All basic dependencies imported successfully";
                        match import_raises w "cv2" with
                        | None => say "OpenCV is available"
                        | Some _ =>
                            say "OpenCV not available - this is expected behavior"
                        end;
                        say "PIL-based image processing (our fallback) works correctly" ];
         tmp_files := filter (fun p => negb (path_eqb p (temp_name w)))
                        (tmp_files s) |})).
Proof.
  unfold test_app_imports.
  erewrite sbind_ok by apply print_ok. unfold try_except.
  import_step "streamlit". import_step "numpy". import_step "PIL".
  import_step "tempfile". import_step "os".
  erewrite sbind_ok by apply print_ok.
  destruct (import_raises w "cv2") as [e|] eqn:Ecv2;
    [destruct (is_ImportError e) eqn:Icv2|].
  2:{ erewrite sbind_raise
        by (unfold try_except_ImportError;
            erewrite sbind_raise by (apply simport_fails, Ecv2);
            rewrite Icv2; reflexivity).
      failed. }
  1: erewrite sbind_ok
       by (unfold try_except_ImportError;
           erewrite sbind_raise by (apply simport_fails, Ecv2);
           rewrite Icv2; apply print_ok).
  2: erewrite sbind_ok
       by (unfold try_except_ImportError;
           erewrite sbind_ok by (apply simport_ok, Ecv2);
           apply print_ok).
  all: cbv zeta.
  all: destruct (tmp_raises w) as [e1|] eqn:Htmp;
    [erewrite sbind_raise by (apply temp_fails, Htmp); failed|].
  all: erewrite sbind_ok by (apply temp_ok, Htmp).
  all: destruct (Image_save w (Image_new_RGB (224, 224) green) (temp_name w))
         as [e2|] eqn:Hsave;
    [erewrite sbind_raise by (apply save_raises, Hsave); failed|].
  all: erewrite sbind_ok by (apply save_ok, Hsave).
  all: destruct (Image_open w (temp_name w)) as [img|e3] eqn:Hopen;
    [|erewrite sbind_raise by (apply open_raises, Hopen); failed].
  all: erewrite sbind_ok by (apply open_ok, Hopen).
  all: destruct (preprocess_returns (lib w) img) as (t & Ht & _).
  all: rewrite Ht.
  all: erewrite sbind_ok by apply lift_ok.
  all: erewrite sbind_ok by apply print_ok.
  all: erewrite sbind_ok by apply unlink_ok.
  all: unfold ret, printed, created; cbn [fst stdout tmp_files].
  all: rewrite filter_created, <- !app_assoc; cbn [app].
  all: split; [split; [intros _; repeat split; now exists img | reflexivity]
              | reflexivity].
Qed.
End SmokeTests.
